(** * Salary Calculator 2025-26: stage detection and enhancement calculation

    A shallow embedding of [src/App.tsx] (with the records of [src/types.ts])
    and the properties of its calculation core.

    Number model.  Every pay amount, grade and stage index of the program is
    an integer: the form fields go through [parseInt] (with [NaN] replaced by
    0) in [handleInputChange], the initial state holds integer literals and
    the pay scales tabulate whole rupees.  They are modelled as [Z].  The
    three derived amounts are products with the binary64 constants [0.30] and
    [0.10]; they are modelled with Rocq's primitive binary64 floats, which
    are the numbers of JavaScript. *)

From Stdlib Require Import ZArith Floats.
From stdpp Require Import gmap strings list pretty.

Set Warnings "-inexact-float".
Local Open Scope Z_scope.

(** ** Data model ([src/types.ts]) *)

(** [PayScale]: an object from BPS number to the array of stage values. *)
Abbreviation PayScale := (gmap Z (list Z)).

Record SalaryInputs := mkInputs {
  bps : Z;
  wasPromoted : bool;
  currentRunningBasicPay : Z;
  prePromotionBps : Z;
  prePromotionBasicPay2017 : Z
}.

Record CalculatedValues := mkValues {
  basic2017 : Z;
  dra : float;
  runningPayIncrease : float;
  totalIncrease : float;
  currentBasicPay : Z
}.

(** The binary64 number that holds the integer [z] (exact below 2^53,
    rounded to nearest even above, as every JavaScript number is). *)
Definition number_of_Z (z : Z) : float :=
  SF2Prim (binary_normalize prec emax z 0 false).

(** ** JavaScript primitives used by the program *)

Module JS.

(** [x < a[i]] and [x >= a[i]]: a comparison with [undefined] (an index
    outside the array) is false. *)
Definition lt (x : Z) (y : option Z) : bool :=
  match y with
  | Some v => x <? v
  | None => false
  end.

Definition ge (x : Z) (y : option Z) : bool :=
  match y with
  | Some v => v <=? x
  | None => false
  end.

(** Truthiness of a [string | null]: [null] and the empty string are falsy. *)
Definition truthy (s : option string) : bool :=
  match s with
  | Some EmptyString => false
  | Some (String _ _) => true
  | None => false
  end.

(** [a || b] on [string | null]. *)
Definition or (a b : option string) : option string :=
  if truthy a then a else b.

(** [s.replace(pat, rep)] with a string pattern: the first occurrence. *)
Fixpoint replace (pat rep s : string) : string :=
  if String.prefix pat s
  then rep +:+ String.substring (String.length pat)
                                (String.length s - String.length pat)%nat s
  else match s with
       | EmptyString => EmptyString
       | String c s' => String c (replace pat rep s')
       end.

(** [`${n}`] for an integer [n] (decimal digits, a minus sign when
    negative). *)
Definition toString (n : Z) : string := pretty n.

End JS.

(** ** Messages of the user interface *)

Definition MSG_INVALID_BPS : string := "Invalid BPS selected.".
Definition MSG_NO_STAGE : string :=
  "Could not determine a stage for the entered basic pay.".
Definition MSG_PROMOTED_PAY : string :=
  "For promoted cases, please enter positive, non-zero values for all pay fields.".
Definition MSG_STAGE_MISSING : string :=
  "Could not calculate. The entered basic pay does not correspond to a valid stage.".
Definition MSG_VERIFY_INPUTS : string :=
  "Could not calculate. Please verify all your inputs are correct and positive values.".

(** ** The application state ([useState] cells of [App]) *)

Record AppState := mkState {
  inputs : SalaryInputs;
  results : option CalculatedValues;
  isLoading : bool;
  error : option string;
  foundStage : option Z
}.

(** The places where [calculateEnhancements] returns [null]. *)
Inductive NullReturn : Set :=
| NoPrePromotionScale  (* line 26: no 2017 scale for the pre-promotion BPS *)
| NoStageFound         (* line 32: no stage was found *)
| InvalidBpsOrStage    (* line 38: invalid BPS or stage for the DRA *)
| NoValidPay.          (* line 45: could not determine valid pay *)

Section Calculator.

(** The two reference tables of [./constants] and the currency formatter
    of the platform ([Intl.NumberFormat('en-PK', ...).format]) are given
    from outside the two source files. *)
Variable PAY_SCALE_2017 : PayScale.
Variable PAY_SCALE_2022 : PayScale.
Variable intlFormat : Z -> string.

(** [formatCurrency] (App.tsx 7-15).  [isNaN(amount)] holds of no integer;
    it holds of [undefined], an absent array element, which is then
    formatted as 0. *)
Definition formatCurrency (amount : option Z) : string :=
  JS.replace "Rs" "PKR" (intlFormat (default 0 amount)).

(** *** [calculateEnhancements] (App.tsx 17-53) *)

(** Lines 18-42: the value given to [basic2017], or the early
    [return null]. *)
Definition draBase (inputs : SalaryInputs) (stage : option Z) : option Z :=
  if wasPromoted inputs then
    match PAY_SCALE_2017 !! prePromotionBps inputs with
    | None => None
    | Some _ => Some (prePromotionBasicPay2017 inputs)
    end
  else
    match stage with
    | None => None
    | Some stageIndex =>
        match PAY_SCALE_2017 !! bps inputs with
        | None => None
        | Some payScale2017ForBps =>
            if (stageIndex <? 0)
               || (Z.of_nat (length payScale2017ForBps) <=? stageIndex)
            then None
            else payScale2017ForBps !! Z.to_nat stageIndex
        end
    end.

(** Lines 44-52: the guard on the two pay values and the result record. *)
Definition enhance (basic2017 currentBasicPay : Z) : option CalculatedValues :=
  if (basic2017 <=? 0) || (currentBasicPay <=? 0) then None
  else
    let dra := (number_of_Z basic2017 * 0.30)%float in
    let runningPayIncrease := (number_of_Z currentBasicPay * 0.10)%float in
    let totalIncrease := (dra + runningPayIncrease)%float in
    Some (mkValues basic2017 dra runningPayIncrease totalIncrease
                   currentBasicPay).

Definition calculateEnhancements (inputs : SalaryInputs) (stage : option Z)
  : option CalculatedValues :=
  let currentBasicPay := currentRunningBasicPay inputs in
  match draBase inputs stage with
  | None => None
  | Some basic2017 => enhance basic2017 currentBasicPay
  end.

(** The same function, with each [return null] named by its place.  The
    caller sees [null] only ([calculateEnhancements_erasure] below); the
    place tells which check failed. *)
Definition draBaseAt (inputs : SalaryInputs) (stage : option Z)
  : NullReturn + Z :=
  if wasPromoted inputs then
    match PAY_SCALE_2017 !! prePromotionBps inputs with
    | None => inl NoPrePromotionScale
    | Some _ => inr (prePromotionBasicPay2017 inputs)
    end
  else
    match stage with
    | None => inl NoStageFound
    | Some stageIndex =>
        match PAY_SCALE_2017 !! bps inputs with
        | None => inl InvalidBpsOrStage
        | Some payScale2017ForBps =>
            if (stageIndex <? 0)
               || (Z.of_nat (length payScale2017ForBps) <=? stageIndex)
            then inl InvalidBpsOrStage
            else match payScale2017ForBps !! Z.to_nat stageIndex with
                 | Some basic2017 => inr basic2017
                 | None => inl InvalidBpsOrStage
                 end
        end
    end.

Definition calculateEnhancementsAt (inputs : SalaryInputs) (stage : option Z)
  : NullReturn + CalculatedValues :=
  match draBaseAt inputs stage with
  | inl place => inl place
  | inr basic2017 =>
      match enhance basic2017 (currentRunningBasicPay inputs) with
      | Some calculated => inr calculated
      | None => inl NoValidPay
      end
  end.

(** *** Stage detection (the [useEffect] of [App], App.tsx 153-197) *)

(** Lines 177-183: the loop [for (i = length - 1; i >= 0; i--)], with [n]
    the number of indices still to visit; [-1] when no stage is found. *)
Fixpoint scanStages (pay : Z) (payScale : list Z) (n : nat) : Z :=
  match n with
  | O => -1
  | S i =>
      if JS.ge pay (payScale !! i) then Z.of_nat i
      else scanStages pay payScale i
  end.

(** Line 171: the template literal of the below-minimum error. *)
Definition belowMinimumMessage (bps : Z) (minimum : option Z) : string :=
  "Basic pay for BPS-" +:+ JS.toString bps +:+ " must be at least "
    +:+ formatCurrency minimum +:+ ".".

(** Lines 160-196: the pair ([foundStage], [error]) that the effect stores
    for an employee who was not promoted. *)
Definition detectStage (bps currentRunningBasicPay : Z)
  : option Z * option string :=
  if (0 <? currentRunningBasicPay) && (0 <? bps) then
    match PAY_SCALE_2022 !! bps with
    | None => (None, Some MSG_INVALID_BPS)
    | Some payScale2022ForBps =>
        if JS.lt currentRunningBasicPay (payScale2022ForBps !! 0%nat) then
          (None, Some (belowMinimumMessage bps (payScale2022ForBps !! 0%nat)))
        else
          let detectedStageIndex :=
            scanStages currentRunningBasicPay payScale2022ForBps
                       (length payScale2022ForBps) in
          if negb (detectedStageIndex =? -1) then
            (Some detectedStageIndex, None)
          else (None, Some MSG_NO_STAGE)
    end
  else (None, None).

(** Lines 153-197: what the effect stores for an input record. *)
Definition stageEffect (i : SalaryInputs) : option Z * option string :=
  if wasPromoted i then (None, None)
  else detectStage (bps i) (currentRunningBasicPay i).

Definition runStageEffect (st : AppState) : AppState :=
  let '(stage, err) := stageEffect (inputs st) in
  mkState (inputs st) (results st) (isLoading st) err stage.

(** *** [handleCalculate] (App.tsx 219-251) *)

(** Lines 224-233. *)
Definition calculationError (i : SalaryInputs) (foundStage : option Z)
  : option string :=
  if wasPromoted i then
    if (prePromotionBasicPay2017 i <=? 0) || (currentRunningBasicPay i <=? 0)
    then Some MSG_PROMOTED_PAY
    else None
  else
    match foundStage with
    | None => Some MSG_STAGE_MISSING
    | Some _ => None
    end.

(** The handler up to [setTimeout]: the state it leaves, and the closure
    ([inputs], [foundStage]) of the timer when one is started. *)
Definition handleCalculate (st : AppState)
  : AppState * option (SalaryInputs * option Z) :=
  let cerr := calculationError (inputs st) (foundStage st) in
  if JS.truthy (error st) || JS.truthy cerr then
    (mkState (inputs st) None false (JS.or (error st) cerr) (foundStage st),
     None)
  else
    (mkState (inputs st) None true (error st) (foundStage st),
     Some (inputs st, foundStage st)).

(** Lines 241-250: the timer's callback. *)
Definition onTimeout (closure : SalaryInputs * option Z) (st : AppState)
  : AppState :=
  match calculateEnhancements (fst closure) (snd closure) with
  | Some calculated =>
      mkState (inputs st) (Some calculated) false None (foundStage st)
  | None =>
      mkState (inputs st) (results st) false (Some MSG_VERIFY_INPUTS)
              (foundStage st)
  end.

(** A click on the button, with the timer run to its end. *)
Definition clickCalculate (st : AppState) : AppState :=
  let '(st1, timer) := handleCalculate st in
  match timer with
  | Some closure => onTimeout closure st1
  | None => st1
  end.

(** One calculation request: the record is entered, the effect runs, the
    button is clicked.  The outcome is the pair ([results], [error]). *)
Definition calculate (i : SalaryInputs)
  : option CalculatedValues * option string :=
  let st := clickCalculate (runStageEffect (mkState i None false None None)) in
  (results st, error st).

End Calculator.

(** ** Sample data for the examples

    The reference tables are not part of the two source files.  The sample
    tables below hold, at grade 16 and index 9, the values of the scenario
    of the specification (47700 on the current scale, 34270 on the
    historical one). *)

Definition stages2022_16 : list Z :=
  [27360; 29620; 31880; 34140; 36400; 38660; 40920; 43180; 45440; 47700;
   49960; 52220].

Definition sample2022 : PayScale :=
  {[ 15 := [23270; 25250; 27230]; 16 := stages2022_16 ]}.

Definition stages2017_16 : list Z :=
  [20590; 22110; 23630; 25150; 26670; 28190; 29710; 31230; 32750; 34270;
   35790].

Definition sample2017 : PayScale :=
  {[ 15 := [16280; 17610; 18940]; 16 := stages2017_16 ]}.

Definition sampleFormat (amount : Z) : string := "Rs " +:+ pretty amount.

Definition sampleInputs : SalaryInputs :=
  mkInputs 16 false 47700 15 24100.

Definition samplePromoted : SalaryInputs :=
  mkInputs 17 true 51740 15 24100.

(** A table whose grade 1 tabulates the same value at two stages, and one
    whose grade 1 has no stage. *)
Definition repeatedStageScale : PayScale := {[ 1 := [100; 200; 200] ]}.

Definition emptyStageScale : PayScale := {[ 1 := [] ]}.

(** ** Properties of a stage sequence *)

(** The invariant of a pay scale: values do not decrease with the stage. *)
Definition nondecreasing (payScale : list Z) : Prop :=
  ∀ (i j : nat) (v w : Z),
    (i ≤ j)%nat → payScale !! i = Some v → payScale !! j = Some w → v ≤ w.

(** The stronger property of a scale whose every stage adds an increment. *)
Definition increasing (payScale : list Z) : Prop :=
  ∀ (i j : nat) (v w : Z),
    (i < j)%nat → payScale !! i = Some v → payScale !! j = Some w → v < w.

(** The invariant as a check that runs. *)
Fixpoint nondecreasingb (payScale : list Z) : bool :=
  match payScale with
  | v :: (w :: _) as rest => (v <=? w) && nondecreasingb rest
  | _ => true
  end.

(** Stage [s] is the floor of [pay]: tabulated at or below it, and either
    the last stage or followed by a stage tabulated above it. *)
Definition FloorStage (payScale : list Z) (pay : Z) (s : nat) : Prop :=
  (∃ v, payScale !! s = Some v ∧ v ≤ pay) ∧
  (S s = length payScale ∨ ∃ w, payScale !! S s = Some w ∧ pay < w).

(** ** Outcome of the timer's callback

    What [calculateEnhancements] answers is shown as it is, or replaced by
    the generic error (lines 242-248). *)
Definition shown (r : option CalculatedValues)
  : option CalculatedValues * option string :=
  match r with
  | Some calculated => (Some calculated, None)
  | None => (None, Some MSG_VERIFY_INPUTS)
  end.

(** ** Agreement of two input records

    [agreeOnBranch i1 i2]: the two records agree on the promotion flag, on
    the current pay and on the fields that their branch reads: the
    pre-promotion grade and pay when promoted, the current grade when not. *)
Definition agreeOnBranch (i1 i2 : SalaryInputs) : Prop :=
  wasPromoted i1 = wasPromoted i2 ∧
  currentRunningBasicPay i1 = currentRunningBasicPay i2 ∧
  if wasPromoted i1
  then prePromotionBps i1 = prePromotionBps i2 ∧
       prePromotionBasicPay2017 i1 = prePromotionBasicPay2017 i2
  else bps i1 = bps i2.


(** ** The component [App]: input changes, rendering and events

    The form has five controls (App.tsx 270, 278-285 and 329-336, 297-303,
    314, 319-326); the two inputs of the current pay share one name. *)
Inductive Control : Set :=
| BpsSelect               (* select, name bps *)
| RunningPayInput         (* input, name currentRunningBasicPay *)
| PromotedCheckbox        (* checkbox, name wasPromoted *)
| PrePromotionBpsSelect   (* select, name prePromotionBps *)
| PrePromotionPayInput.   (* input, name prePromotionBasicPay2017 *)

(** What [parseInt(value, 10)] answers: [NaN], the negative zero, or another
    integer.  The negative zero compares as 0 everywhere in the program; it
    is told from 0 only where React compares the dependencies of the effect
    (with [Object.is]). *)
Inductive Parsed : Set :=
| PNaN
| PNegZero
| PInt (z : Z).

(** The events of the page: a change of a control, a click on the button,
    the timer of a click running out. *)
Inductive Event : Set :=
| Change (target : Control) (value : string) (checked : bool)
| Click
| Timeout.

(** The component between two events: the state cells, whether [inputs.bps]
    and [inputs.currentRunningBasicPay] hold the negative zero, and the
    closures of the timers not yet run, oldest first. *)
Record App := mkApp {
  cells : AppState;
  zeroSigns : bool * bool;
  timers : list (SalaryInputs * option Z)
}.

(** Lines 140-146: the initial input record. *)
Definition initialInputs : SalaryInputs := mkInputs 16 false 47700 15 24100.

Section Component.

Variable PAY_SCALE_2017 : PayScale.
Variable PAY_SCALE_2022 : PayScale.
Variable intlFormat : Z → string.

(** [parseInt(_, 10)] of the platform. *)
Variable parseInt : string → Parsed.

(** Lines 209-210: [isNaN(parsedValue) ? 0 : parsedValue], as the integer
    and whether it is the negative zero. *)
Definition parsedValue (value : string) : Z * bool :=
  match parseInt value with
  | PNaN => (0, false)
  | PNegZero => (0, true)
  | PInt z => (z, false)
  end.

(** Lines 202-214: the record built by the updater of [setInputs]. *)
Definition changedInputs (target : Control) (value : string) (checked : bool)
    (prev : SalaryInputs) : SalaryInputs :=
  match target with
  | PromotedCheckbox =>
      mkInputs (bps prev) checked (currentRunningBasicPay prev)
               (prePromotionBps prev) (prePromotionBasicPay2017 prev)
  | BpsSelect =>
      mkInputs (fst (parsedValue value)) (wasPromoted prev)
               (currentRunningBasicPay prev) (prePromotionBps prev)
               (prePromotionBasicPay2017 prev)
  | RunningPayInput =>
      mkInputs (bps prev) (wasPromoted prev) (fst (parsedValue value))
               (prePromotionBps prev) (prePromotionBasicPay2017 prev)
  | PrePromotionBpsSelect =>
      mkInputs (bps prev) (wasPromoted prev) (currentRunningBasicPay prev)
               (fst (parsedValue value)) (prePromotionBasicPay2017 prev)
  | PrePromotionPayInput =>
      mkInputs (bps prev) (wasPromoted prev) (currentRunningBasicPay prev)
               (prePromotionBps prev) (fst (parsedValue value))
  end.

Definition changedSigns (target : Control) (value : string)
    (signs : bool * bool) : bool * bool :=
  match target with
  | BpsSelect => (snd (parsedValue value), snd signs)
  | RunningPayInput => (fst signs, snd (parsedValue value))
  | _ => signs
  end.

(** [handleInputChange] (lines 199-217): the new inputs, and
    [setResults(null)]. *)
Definition handleInputChange (target : Control) (value : string)
    (checked : bool) (st : AppState) : AppState :=
  mkState (changedInputs target value checked (inputs st)) None
          (isLoading st) (error st) (foundStage st).

(** Line 197: the effect runs again when one of [inputs.bps],
    [inputs.currentRunningBasicPay], [inputs.wasPromoted] is not the same
    value as at the render before. *)
Definition depsChanged (old : SalaryInputs) (oldSigns : bool * bool)
    (new : SalaryInputs) (newSigns : bool * bool) : bool :=
  negb ((bps old =? bps new)
        && (currentRunningBasicPay old =? currentRunningBasicPay new)
        && Bool.eqb (wasPromoted old) (wasPromoted new)
        && Bool.eqb (fst oldSigns) (fst newSigns)
        && Bool.eqb (snd oldSigns) (snd newSigns)).

(** Line 343: [disabled={isLoading || !!error}]. *)
Definition buttonDisabled (st : AppState) : bool :=
  isLoading st || JS.truthy (error st).

(** Lines 275 and 287-291: the stage number of the banner
    [Base Stage Detected], when the banner is rendered. *)
Definition stageBanner (st : AppState) : option Z :=
  if negb (wasPromoted (inputs st)) then
    match foundStage st with
    | Some stage => if negb (JS.truthy (error st)) then Some (stage + 1)
                    else None
    | None => None
    end
  else None.

(** One event.  A click on the disabled button and a timer that is not
    there do nothing. *)
Definition step (e : Event) (a : App) : App :=
  match e with
  | Change target value checked =>
      let st := handleInputChange target value checked (cells a) in
      let signs := changedSigns target value (zeroSigns a) in
      mkApp (if depsChanged (inputs (cells a)) (zeroSigns a) (inputs st) signs
             then runStageEffect PAY_SCALE_2022 intlFormat st
             else st)
            signs (timers a)
  | Click =>
      if buttonDisabled (cells a) then a
      else
        let '(st, timer) := handleCalculate (cells a) in
        mkApp st (zeroSigns a) (timers a ++ option_list timer)
  | Timeout =>
      match timers a with
      | [] => a
      | closure :: rest =>
          mkApp (onTimeout PAY_SCALE_2017 closure (cells a)) (zeroSigns a) rest
      end
  end.

Definition run (events : list Event) (a : App) : App :=
  foldl (λ a e, step e a) a events.

(** The component after its first render and the first run of the effect,
    on an initial input record. *)
Definition mount (i : SalaryInputs) : App :=
  mkApp (runStageEffect PAY_SCALE_2022 intlFormat
           (mkState i None false None None))
        (false, false) [].

End Component.

(** A sample [parseInt], on the texts of the examples. *)
Definition sampleParse (value : string) : Parsed :=
  if String.eqb value "50000" then PInt 50000
  else if String.eqb value "1000" then PInt 1000
  else if String.eqb value "17" then PInt 17
  else if String.eqb value "-0" then PNegZero
  else PNaN.

(** ** Invariant of the component

    The stored stage is the one of the current inputs; at most one timer is
    waiting, and one is waiting exactly while [isLoading] is set; no result
    is shown while a timer is waiting, nor together with an error. *)
Definition AppInvariant (PAY_SCALE_2022 : PayScale) (intlFormat : Z → string)
    (a : App) : Prop :=
  foundStage (cells a)
    = fst (stageEffect PAY_SCALE_2022 intlFormat (inputs (cells a))) ∧
  (length (timers a) ≤ 1)%nat ∧
  (isLoading (cells a) = true ↔ timers a ≠ []) ∧
  (timers a ≠ [] → results (cells a) = None) ∧
  (results (cells a) ≠ None → error (cells a) = None).

(** The events that touch none of the three dependencies of the effect and
    run no timer: a change of a pre-promotion control, a click. *)
Definition offDependency (e : Event) : bool :=
  match e with
  | Change PrePromotionBpsSelect _ _ => true
  | Change PrePromotionPayInput _ _ => true
  | Click => true
  | _ => false
  end.

(** ** The downward scan *)

Section Scan.

Variable pay : Z.
Variable payScale : list Z.

(** The scan answers [-1] or an index among those it visited. *)
Lemma scanStages_range (n : nat) :
  scanStages pay payScale n = -1 ∨
  ∃ i : nat, scanStages pay payScale n = Z.of_nat i ∧ (i < n)%nat.
Proof.
  induction n as [|n IH]; simpl; [by left|].
  destruct (JS.ge pay (payScale !! n)).
  - right. exists n. split; [done|lia].
  - destruct IH as [IH|(i & Hi & Hlt)]; [by left|].
    right. exists i. split; [done|lia].
Qed.

(** The stage it answers is tabulated at or below the pay. *)
Lemma scanStages_le (n i : nat) :
  scanStages pay payScale n = Z.of_nat i →
  ∃ v, payScale !! i = Some v ∧ v ≤ pay.
Proof.
  induction n as [|n IH]; simpl; [lia|].
  destruct (JS.ge pay (payScale !! n)) eqn:Hge; [|exact IH].
  intros Heq. assert (n = i) as <- by lia.
  unfold JS.ge in Hge. destruct (payScale !! n) as [v|]; [|done].
  exists v. split; [done|]. by apply Z.leb_le.
Qed.

(** Every visited stage above the answer is tabulated above the pay. *)
Lemma scanStages_above (n i j : nat) (w : Z) :
  scanStages pay payScale n = Z.of_nat i →
  (i < j < n)%nat → payScale !! j = Some w → pay < w.
Proof.
  induction n as [|n IH]; simpl; [lia|].
  destruct (JS.ge pay (payScale !! n)) eqn:Hge.
  - intros Heq Hlt. lia.
  - intros Heq [Hij Hjn] Hw.
    destruct (decide (j = n)) as [->|Hne].
    + rewrite Hw in Hge. simpl in Hge. by apply Z.leb_gt.
    + apply IH; [done|lia|done].
Qed.

(** When it answers [-1], every visited stage is tabulated above the pay. *)
Lemma scanStages_none (n j : nat) (w : Z) :
  scanStages pay payScale n = -1 →
  (j < n)%nat → payScale !! j = Some w → pay < w.
Proof.
  induction n as [|n IH]; simpl; [lia|].
  destruct (JS.ge pay (payScale !! n)) eqn:Hge; [lia|].
  intros Heq Hjn Hw.
  destruct (decide (j = n)) as [->|Hne].
  - rewrite Hw in Hge. simpl in Hge. by apply Z.leb_gt.
  - apply IH; [done|lia|done].
Qed.

(** A visited stage tabulated at or below the pay makes the scan succeed,
    at that stage or above. *)
Lemma scanStages_finds (n j : nat) (w : Z) :
  (j < n)%nat → payScale !! j = Some w → w ≤ pay →
  ∃ i : nat, scanStages pay payScale n = Z.of_nat i ∧ (j ≤ i < n)%nat.
Proof.
  intros Hjn Hw Hle.
  destruct (scanStages_range n) as [Hnone|(i & Hi & Hin)].
  - pose proof (scanStages_none n j w Hnone Hjn Hw). lia.
  - exists i. split; [done|]. split; [|done].
    destruct (decide (j ≤ i)%nat) as [|Hgt]; [done|].
    assert (pay < w) by (apply (scanStages_above n i j); [done|lia|done]).
    lia.
Qed.

End Scan.

(** ** The invariant of a pay scale *)

Lemma nondecreasingb_correct (payScale : list Z) :
  nondecreasingb payScale = true → nondecreasing payScale.
Proof.
  induction payScale as [|v rest IH]; [intros _ i j ? ? _ Hi; by destruct i|].
  intros Hb.
  assert (nondecreasing rest ∧ ∀ w, rest !! 0%nat = Some w → v ≤ w)
    as [Hrest Hhead].
  { destruct rest as [|w rest']; [split; [by apply IH|done]|].
    simpl in Hb. apply andb_prop in Hb as [Hvw Hb].
    split; [by apply IH|]. intros w' [= <-]. by apply Z.leb_le. }
  intros i j x y Hij Hx Hy.
  destruct i as [|i], j as [|j]; simpl in Hx, Hy.
  - simplify_eq. lia.
  - simplify_eq.
    destruct (lookup_lt_is_Some_2 rest 0) as [w Hw].
    { apply lookup_lt_Some in Hy. lia. }
    pose proof (Hhead w Hw).
    pose proof (Hrest 0%nat j w y ltac:(lia) Hw Hy). lia.
  - lia.
  - apply (Hrest i j); [lia|done..].
Qed.

(** ** Stage detection *)

Section StageDetection.

Variable PAY_SCALE_2022 : PayScale.
Variable intlFormat : Z → string.

Local Abbreviation detect := (detectStage PAY_SCALE_2022 intlFormat).

(** Past the guard and the minimum check, the effect stores what the scan
    answers. *)
Lemma detectStage_scan (bps pay : Z) (payScale : list Z) (s : nat) :
  0 < bps → 0 < pay →
  PAY_SCALE_2022 !! bps = Some payScale →
  JS.lt pay (payScale !! 0%nat) = false →
  scanStages pay payScale (length payScale) = Z.of_nat s →
  detect bps pay = (Some (Z.of_nat s), None).
Proof.
  intros Hbps Hpay Hscale Hmin Hscan. unfold detectStage.
  rewrite (proj2 (Z.ltb_lt 0 pay) Hpay), (proj2 (Z.ltb_lt 0 bps) Hbps).
  simpl. rewrite Hscale, Hmin, Hscan.
  destruct (Z.eqb_spec (Z.of_nat s) (-1)) as [Heq|_]; [lia|done].
Qed.

(** The guard of line 160: without a positive pay and a positive grade
    the effect stores neither a stage nor an error. *)
Lemma detectStage_guard (bps pay : Z) :
  pay ≤ 0 ∨ bps ≤ 0 → detect bps pay = (None, None).
Proof.
  intros Hguard. unfold detectStage.
  destruct (Z.ltb_spec 0 pay), (Z.ltb_spec 0 bps); simpl; try done; lia.
Qed.

(** The answer of the scan on a pay at or above the stage-0 value, with
    the highest-stage property. *)
Lemma detectStage_highest (bps pay : Z) (payScale : list Z) (m : Z) :
  0 < bps → 0 < pay →
  PAY_SCALE_2022 !! bps = Some payScale →
  payScale !! 0%nat = Some m → m ≤ pay →
  ∃ s : nat,
    detect bps pay = (Some (Z.of_nat s), None) ∧
    (s < length payScale)%nat ∧
    (∃ v, payScale !! s = Some v ∧ v ≤ pay) ∧
    (∀ (j : nat) (w : Z), (s < j)%nat → payScale !! j = Some w → pay < w).
Proof.
  intros Hbps Hpay Hscale Hm Hle.
  assert (0 < length payScale)%nat as Hlen
    by (apply lookup_lt_is_Some; eauto).
  destruct (scanStages_finds pay payScale (length payScale) 0 m Hlen Hm Hle)
    as (s & Hs & _ & Hslt).
  exists s. split; [|split; [done|split]].
  - apply (detectStage_scan bps pay payScale s); try done.
    rewrite Hm. simpl. by apply Z.ltb_ge.
  - by apply (scanStages_le pay payScale (length payScale)).
  - intros j w Hsj Hw.
    apply (scanStages_above pay payScale (length payScale) s j); [done| |done].
    split; [done|]. apply lookup_lt_is_Some. eauto.
Qed.

End StageDetection.

(** C1: for every grade present in the current-period table and every valid
    current pay at or above that grade's stage-0 value, stage detection
    stores a stage index [s] (and no error) such that the value tabulated at
    [s] is at most the pay and either [s] is the last index or the value
    tabulated at [s + 1] is above the pay.  Valid means what the guard of
    line 160 asks: a positive pay, on a positive grade. *)
Theorem detectStage_floor (PAY_SCALE_2022 : PayScale) (intlFormat : Z → string)
    (bps pay : Z) (payScale : list Z) (m : Z) :
  0 < bps → 0 < pay →
  PAY_SCALE_2022 !! bps = Some payScale →
  payScale !! 0%nat = Some m → m ≤ pay →
  ∃ s : nat,
    detectStage PAY_SCALE_2022 intlFormat bps pay = (Some (Z.of_nat s), None) ∧
    FloorStage payScale pay s.
Proof.
  intros Hbps Hpay Hscale Hm Hle.
  destruct (detectStage_highest PAY_SCALE_2022 intlFormat bps pay payScale m)
    as (s & Hs & Hlen & Hfloor & Habove); try done.
  exists s. split; [done|]. split; [done|].
  destruct (decide (S s = length payScale)) as [|Hne]; [by left|right].
  destruct (lookup_lt_is_Some_2 payScale (S s)) as [w Hw]; [lia|].
  exists w. split; [done|]. apply (Habove (S s)); [lia|done].
Qed.

Lemma detectStage_floor_witness :
  ∃ s : nat,
    detectStage sample2022 sampleFormat 16 48000 = (Some (Z.of_nat s), None) ∧
    FloorStage stages2022_16 48000 s.
Proof.
  apply (detectStage_floor sample2022 sampleFormat 16 48000 _ 27360);
    [lia | lia | vm_compute; reflexivity | reflexivity | lia].
Defined.

(** C5, as stated, fails at a current pay of 0 (an emptied pay field): it is
    below every positive stage-0 value, and the guard of line 160 makes the
    effect store no stage and no diagnostic at all. *)
Lemma below_minimum_counterexample :
  detectStage sample2022 sampleFormat 16 0 = (None, None) ∧
  ¬ (∀ (bps pay : Z) (payScale : list Z) (m : Z),
       sample2022 !! bps = Some payScale →
       payScale !! 0%nat = Some m → pay < m →
       ∃ diagnostic : string,
         detectStage sample2022 sampleFormat bps pay = (None, Some diagnostic)).
Proof.
  split; [by vm_compute|].
  intros Hclaim.
  destruct (Hclaim 16 0 stages2022_16 27360)
    as (diagnostic & Hd); [by vm_compute| by vm_compute| lia |].
  vm_compute in Hd. discriminate Hd.
Qed.

(** C5 (amended): for every positive grade known to the current-period table
    and every positive current pay strictly below that grade's stage-0
    value, stage detection stores no stage together with the below-minimum
    error, whose text cites the formatted stage-0 value of that grade. *)
Theorem detectStage_below_minimum (PAY_SCALE_2022 : PayScale)
    (intlFormat : Z → string) (bps pay : Z) (payScale : list Z) (m : Z) :
  0 < bps → 0 < pay →
  PAY_SCALE_2022 !! bps = Some payScale →
  payScale !! 0%nat = Some m → pay < m →
  detectStage PAY_SCALE_2022 intlFormat bps pay =
    (None,
     Some ("Basic pay for BPS-" +:+ JS.toString bps +:+ " must be at least "
             +:+ formatCurrency intlFormat (Some m) +:+ ".")).
Proof.
  intros Hbps Hpay Hscale Hm Hlt. unfold detectStage.
  rewrite (proj2 (Z.ltb_lt 0 pay) Hpay), (proj2 (Z.ltb_lt 0 bps) Hbps).
  simpl. rewrite Hscale, Hm. simpl.
  by rewrite (proj2 (Z.ltb_lt pay m) Hlt).
Qed.

Lemma detectStage_below_minimum_witness :
  detectStage sample2022 sampleFormat 16 1000 =
    (None, Some "Basic pay for BPS-16 must be at least PKR 27360.").
Proof.
  apply (detectStage_below_minimum sample2022 sampleFormat 16 1000
           stages2022_16 27360);
    [lia | lia | vm_compute; reflexivity | reflexivity | lia].
Defined.

(** C7: under the invariant that the stage values of a grade do not
    decrease, once the below-minimum check has passed (the current pay is at
    or above the stage-0 value) the downward scan finds a stage: it does not
    answer [-1], and the effect never stores the fallback error of
    line 191.  (The stage-0 value at or below the pay is what the proof
    uses; it holds of sequences that decrease as well.) *)
Theorem scan_fallback_unreachable (PAY_SCALE_2022 : PayScale)
    (intlFormat : Z → string) (bps pay : Z) (payScale : list Z) (m : Z) :
  nondecreasing payScale →
  PAY_SCALE_2022 !! bps = Some payScale →
  payScale !! 0%nat = Some m → m ≤ pay →
  scanStages pay payScale (length payScale) ≠ -1 ∧
  (∃ s : nat, scanStages pay payScale (length payScale) = Z.of_nat s ∧
              (s < length payScale)%nat) ∧
  snd (detectStage PAY_SCALE_2022 intlFormat bps pay) ≠ Some MSG_NO_STAGE.
Proof.
  intros _ Hscale Hm Hle.
  assert (0 < length payScale)%nat as Hlen
    by (apply lookup_lt_is_Some; eauto).
  destruct (scanStages_finds pay payScale (length payScale) 0 m Hlen Hm Hle)
    as (s & Hs & _ & Hslt).
  split; [lia|]. split; [by exists s|].
  unfold detectStage.
  destruct ((0 <? pay) && (0 <? bps)); [|done].
  rewrite Hscale, Hm. simpl.
  rewrite (proj2 (Z.ltb_ge pay m) Hle), Hs.
  destruct (Z.eqb_spec (Z.of_nat s) (-1)) as [Heq|_]; [lia|done].
Qed.

(** The minimum check also passes when the grade has no stage at all (the
    comparison with the absent stage-0 value is false); the scan then visits
    nothing and the fallback is what the effect stores. *)
Example scan_fallback_on_empty_scale :
  detectStage emptyStageScale sampleFormat 1 100 = (None, Some MSG_NO_STAGE).
Proof. by vm_compute. Qed.

Lemma scan_fallback_unreachable_witness :
  scanStages 48000 stages2022_16 (length stages2022_16) ≠ -1 ∧
  (∃ s : nat,
     scanStages 48000 stages2022_16 (length stages2022_16) = Z.of_nat s ∧
     (s < length stages2022_16)%nat) ∧
  snd (detectStage sample2022 sampleFormat 16 48000) ≠ Some MSG_NO_STAGE.
Proof.
  apply (scan_fallback_unreachable sample2022 sampleFormat 16 48000
           stages2022_16 27360);
    [ | vm_compute; reflexivity | reflexivity | lia].
  by apply nondecreasingb_correct.
Defined.

(** On a scale whose stages increase, a pay equal to a tabulated positive
    value resolves to the stage of that value. *)
Lemma detectStage_exact_increasing (PAY_SCALE_2022 : PayScale)
    (intlFormat : Z → string) (bps : Z) (payScale : list Z) (i : nat) (v : Z) :
  0 < bps → 0 < v →
  PAY_SCALE_2022 !! bps = Some payScale →
  increasing payScale →
  payScale !! i = Some v →
  detectStage PAY_SCALE_2022 intlFormat bps v = (Some (Z.of_nat i), None).
Proof.
  intros Hbps Hv Hscale Hinc Hi.
  destruct (lookup_lt_is_Some_2 payScale 0) as [m Hm].
  { apply lookup_lt_Some in Hi. lia. }
  assert (m ≤ v) as Hmv.
  { destruct i as [|i]; [by simplify_eq|].
    pose proof (Hinc 0%nat (S i) m v ltac:(lia) Hm Hi). lia. }
  destruct (detectStage_highest PAY_SCALE_2022 intlFormat bps v payScale m)
    as (s & Hs & _ & (w & Hw & Hwv) & Habove); try done.
  destruct (Nat.lt_trichotomy s i) as [Hlt|[->|Hgt]]; [|done|].
  - pose proof (Habove i v Hlt Hi). lia.
  - pose proof (Hinc i s v w Hgt Hi Hw). lia.
Qed.

(** C8, as stated, fails on a stage sequence that tabulates a value twice
    (the invariant only asks that values do not decrease): the scan starts
    at the top, so a pay equal to the value of stage 1 is given the highest
    stage with that value, stage 2. *)
Lemma exact_value_counterexample :
  nondecreasing [100; 200; 200] ∧
  detectStage repeatedStageScale sampleFormat 1 200 = (Some 2, None) ∧
  ¬ (∀ (bps : Z) (payScale : list Z) (i : nat) (v : Z),
       repeatedStageScale !! bps = Some payScale →
       payScale !! i = Some v →
       fst (detectStage repeatedStageScale sampleFormat bps v)
         = Some (Z.of_nat i)).
Proof.
  split; [by apply nondecreasingb_correct|].
  split; [by vm_compute|].
  intros Hclaim.
  pose proof (Hclaim 1 [100; 200; 200] 1%nat 200) as Hs.
  vm_compute in Hs. by specialize (Hs eq_refl eq_refl).
Qed.

(** C8 (amended): for every positive grade known to the current-period
    table and every stage index [i] whose tabulated value is positive and
    not below the stage-0 value, a current pay exactly equal to that value
    resolves to the highest stage whose value is at most that pay, never to
    a stage below [i]: on a sequence that does not decrease, the last stage
    that tabulates exactly that value.  It resolves to stage [i] itself
    whenever every later stage is tabulated strictly above it. *)
Theorem detectStage_exact_value (PAY_SCALE_2022 : PayScale)
    (intlFormat : Z → string) (bps : Z) (payScale : list Z) (i : nat) (v : Z) :
  0 < bps → 0 < v →
  PAY_SCALE_2022 !! bps = Some payScale →
  payScale !! i = Some v →
  (∀ m, payScale !! 0%nat = Some m → m ≤ v) →
  ∃ s : nat,
    detectStage PAY_SCALE_2022 intlFormat bps v = (Some (Z.of_nat s), None) ∧
    (i ≤ s)%nat ∧
    (∃ w, payScale !! s = Some w ∧ w ≤ v) ∧
    (nondecreasing payScale → payScale !! s = Some v) ∧
    ((∀ (j : nat) (w : Z), (i < j)%nat → payScale !! j = Some w → v < w) →
     s = i).
Proof.
  intros Hbps Hv Hscale Hi Hmin.
  destruct (lookup_lt_is_Some_2 payScale 0) as [m Hm].
  { apply lookup_lt_Some in Hi. lia. }
  destruct (detectStage_highest PAY_SCALE_2022 intlFormat bps v payScale m)
    as (s & Hs & Hlen & Hfloor & Habove); try done; [by apply Hmin|].
  assert (i ≤ s)%nat as His.
  { destruct (decide (i ≤ s)%nat) as [|Hgt]; [done|].
    pose proof (Habove i v ltac:(lia) Hi). lia. }
  exists s. split; [done|]. split; [done|]. split; [done|].
  destruct Hfloor as (w & Hw & Hwv). split.
  - intros Hmono. pose proof (Hmono i s v w His Hi Hw).
    rewrite Hw. f_equal. lia.
  - intros Hlater.
    destruct (decide (s = i)) as [|Hne]; [done|].
    pose proof (Hlater s w ltac:(lia) Hw). lia.
Qed.

Lemma detectStage_exact_value_witness :
  ∃ s : nat,
    detectStage sample2022 sampleFormat 16 47700 = (Some (Z.of_nat s), None) ∧
    (9 ≤ s)%nat ∧
    (∃ w, stages2022_16 !! s = Some w ∧ w ≤ 47700) ∧
    (nondecreasing stages2022_16 → stages2022_16 !! s = Some 47700) ∧
    ((∀ (j : nat) (w : Z),
        (9 < j)%nat → stages2022_16 !! j = Some w → 47700 < w) →
     s = 9%nat).
Proof.
  apply (detectStage_exact_value sample2022 sampleFormat 16 stages2022_16
           9%nat 47700);
    [lia | lia | vm_compute; reflexivity | reflexivity |].
  intros m [= <-]. lia.
Defined.

(** ** The enhancement formula *)

(** The scenarios of the specification, evaluated. *)
Example scenario_not_promoted :
  calculate sample2017 sample2022 sampleFormat sampleInputs =
    (Some (mkValues 34270 10281 4770 15051 47700), None).
Proof. by vm_compute. Qed.

Example scenario_promoted :
  calculate sample2017 sample2022 sampleFormat samplePromoted =
    (Some (mkValues 24100 7230 5174 12404 51740), None).
Proof. by vm_compute. Qed.

Lemma enhance_positive (basic2017 currentBasicPay : Z) :
  0 < basic2017 → 0 < currentBasicPay →
  enhance basic2017 currentBasicPay =
    Some (mkValues basic2017
            (number_of_Z basic2017 * 0.30)%float
            (number_of_Z currentBasicPay * 0.10)%float
            (number_of_Z basic2017 * 0.30
             + number_of_Z currentBasicPay * 0.10)%float
            currentBasicPay).
Proof.
  intros Hb Hc. unfold enhance.
  by rewrite (proj2 (Z.leb_gt basic2017 0) Hb),
             (proj2 (Z.leb_gt currentBasicPay 0) Hc).
Qed.

Lemma enhance_nonpositive (basic2017 currentBasicPay : Z) :
  basic2017 ≤ 0 ∨ currentBasicPay ≤ 0 →
  enhance basic2017 currentBasicPay = None.
Proof.
  intros Hle. unfold enhance.
  destruct (Z.leb_spec basic2017 0), (Z.leb_spec currentBasicPay 0);
    simpl; try done; lia.
Qed.

(** C2: for strictly positive baseline pay and current pay, the
    enhancement computation returns a record that carries the baseline pay,
    the allowance [baselinePay * 0.30], the increase [currentPay * 0.10],
    their sum as the total, and the current pay unchanged; and this is the
    record [calculateEnhancements] returns whenever its branch yields that
    baseline.  The products and the sum are those of binary64. *)
Theorem enhancement_formula (baselinePay currentPay : Z) :
  0 < baselinePay → 0 < currentPay →
  ∃ r : CalculatedValues,
    enhance baselinePay currentPay = Some r ∧
    basic2017 r = baselinePay ∧
    dra r = (number_of_Z baselinePay * 0.30)%float ∧
    runningPayIncrease r = (number_of_Z currentPay * 0.10)%float ∧
    totalIncrease r = (dra r + runningPayIncrease r)%float ∧
    currentBasicPay r = currentPay ∧
    ∀ (PAY_SCALE_2017 : PayScale) (i : SalaryInputs) (stage : option Z),
      draBase PAY_SCALE_2017 i stage = Some baselinePay →
      currentRunningBasicPay i = currentPay →
      calculateEnhancements PAY_SCALE_2017 i stage = Some r.
Proof.
  intros Hb Hc. eexists. split; [by apply enhance_positive|].
  simpl. repeat (split; [reflexivity|]).
  intros T17 i stage Hbase Hcur. unfold calculateEnhancements.
  rewrite Hbase, Hcur. by apply enhance_positive.
Qed.

Lemma enhancement_formula_witness :
  ∃ r : CalculatedValues,
    enhance 34270 47700 = Some r ∧
    basic2017 r = 34270 ∧
    dra r = (number_of_Z 34270 * 0.30)%float ∧
    runningPayIncrease r = (number_of_Z 47700 * 0.10)%float ∧
    totalIncrease r = (dra r + runningPayIncrease r)%float ∧
    currentBasicPay r = 47700 ∧
    ∀ (PAY_SCALE_2017 : PayScale) (i : SalaryInputs) (stage : option Z),
      draBase PAY_SCALE_2017 i stage = Some 34270 →
      currentRunningBasicPay i = 47700 →
      calculateEnhancements PAY_SCALE_2017 i stage = Some r.
Proof. apply (enhancement_formula 34270 47700); lia. Defined.

(** ** One calculation request *)

Section Request.

Variable PAY_SCALE_2017 : PayScale.
Variable PAY_SCALE_2022 : PayScale.
Variable intlFormat : Z → string.

Local Abbreviation enhancements := (calculateEnhancements PAY_SCALE_2017).
Local Abbreviation detect := (detectStage PAY_SCALE_2022 intlFormat).
Local Abbreviation request :=
  (calculate PAY_SCALE_2017 PAY_SCALE_2022 intlFormat).

Lemma calculate_promoted (i : SalaryInputs) :
  wasPromoted i = true →
  request i =
    if (prePromotionBasicPay2017 i <=? 0) || (currentRunningBasicPay i <=? 0)
    then (None, Some MSG_PROMOTED_PAY)
    else shown (enhancements i None).
Proof.
  intros Hp.
  unfold calculate, runStageEffect, stageEffect, clickCalculate,
    handleCalculate, calculationError, onTimeout.
  simpl. rewrite Hp. simpl. rewrite ?Hp.
  destruct ((prePromotionBasicPay2017 i <=? 0)
            || (currentRunningBasicPay i <=? 0)); simpl; [done|].
  by destruct (enhancements i None).
Qed.

Lemma calculate_resolved (i : SalaryInputs) (s : Z) :
  wasPromoted i = false →
  detect (bps i) (currentRunningBasicPay i) = (Some s, None) →
  request i = shown (enhancements i (Some s)).
Proof.
  intros Hp Hs.
  unfold calculate, runStageEffect, stageEffect, clickCalculate,
    handleCalculate, calculationError, onTimeout.
  simpl. rewrite Hp, Hs. simpl. rewrite ?Hp. simpl.
  by destruct (enhancements i (Some s)).
Qed.

(** The promoted branch does not read the stage. *)
Lemma draBase_promoted (i : SalaryInputs) (stage : option Z) :
  wasPromoted i = true →
  draBase PAY_SCALE_2017 i stage =
    match PAY_SCALE_2017 !! prePromotionBps i with
    | None => None
    | Some _ => Some (prePromotionBasicPay2017 i)
    end.
Proof. intros Hp. unfold draBase. by rewrite Hp. Qed.

(** The branch of an employee who was not promoted, on a stage index. *)
Lemma draBase_stage (i : SalaryInputs) (s : Z) :
  wasPromoted i = false →
  draBase PAY_SCALE_2017 i (Some s) =
    match PAY_SCALE_2017 !! bps i with
    | None => None
    | Some payScale =>
        if (s <? 0) || (Z.of_nat (length payScale) <=? s) then None
        else payScale !! Z.to_nat s
    end.
Proof. intros Hp. unfold draBase. by rewrite Hp. Qed.

(** The caller of [calculateEnhancements] sees the result, or [null]
    whatever the place. *)
Lemma draBase_erasure (i : SalaryInputs) (stage : option Z) :
  draBase PAY_SCALE_2017 i stage =
    match draBaseAt PAY_SCALE_2017 i stage with
    | inl _ => None
    | inr basic2017 => Some basic2017
    end.
Proof.
  unfold draBase, draBaseAt.
  destruct (wasPromoted i).
  - by destruct (PAY_SCALE_2017 !! prePromotionBps i).
  - destruct stage as [s|]; [|done].
    destruct (PAY_SCALE_2017 !! bps i) as [payScale|]; [|done].
    destruct ((s <? 0) || (Z.of_nat (length payScale) <=? s)); [done|].
    by destruct (payScale !! Z.to_nat s).
Qed.

Lemma calculateEnhancements_erasure (i : SalaryInputs) (stage : option Z) :
  enhancements i stage =
    match calculateEnhancementsAt PAY_SCALE_2017 i stage with
    | inl _ => None
    | inr calculated => Some calculated
    end.
Proof.
  unfold calculateEnhancements, calculateEnhancementsAt.
  rewrite draBase_erasure.
  destruct (draBaseAt PAY_SCALE_2017 i stage) as [place|basic]; [done|].
  by destruct (enhance basic (currentRunningBasicPay i)).
Qed.

(** A stored stage is a natural number below the length of the grade's
    current sequence, found for a positive pay. *)
Lemma detectStage_Some (bps pay s : Z) (err : option string) :
  detect bps pay = (Some s, err) →
  err = None ∧ 0 < pay ∧ 0 < bps ∧
  ∃ payScale, PAY_SCALE_2022 !! bps = Some payScale ∧
              0 ≤ s < Z.of_nat (length payScale).
Proof.
  unfold detectStage.
  destruct (Z.ltb_spec 0 pay), (Z.ltb_spec 0 bps); simpl; try done.
  destruct (PAY_SCALE_2022 !! bps) as [payScale|]; [|done].
  destruct (JS.lt pay (payScale !! 0%nat)); [done|].
  destruct (scanStages_range pay payScale (length payScale))
    as [Hnone|(k & Hk & Hlt)].
  - by rewrite Hnone.
  - rewrite Hk.
    destruct (Z.eqb_spec (Z.of_nat k) (-1)) as [|_]; [lia|]. simpl.
    intros [= <- <-]. repeat split; try done.
    exists payScale. split; [done|lia].
Qed.

End Request.

(** ** The promoted branch *)

(** C3, as stated, fails: the program has no error of its own for a
    missing pre-promotion grade.  With positive pays such a request ends
    with the generic error, the one that a failed historical lookup of an
    employee who was not promoted also gets; with a pre-promotion pay of 0
    it ends with the error on the pay fields, since [handleCalculate] tests
    the pays before [calculateEnhancements] looks the grade up.  No single
    error is what a missing pre-promotion grade fails with. *)
Lemma pre_promotion_grade_counterexample :
  sample2017 !! 14 = None ∧
  calculate sample2017 sample2022 sampleFormat (mkInputs 17 true 51740 14 24100)
    = (None, Some MSG_VERIFY_INPUTS) ∧
  calculate sample2017 sample2022 sampleFormat
      (mkInputs 16 false 52220 15 24100)
    = (None, Some MSG_VERIFY_INPUTS) ∧
  calculate sample2017 sample2022 sampleFormat (mkInputs 17 true 51740 14 0)
    = (None, Some MSG_PROMOTED_PAY) ∧
  ¬ (∃ invalidPrePromotionGrade : string,
       ∀ i : SalaryInputs,
         wasPromoted i = true →
         sample2017 !! prePromotionBps i = None →
         calculate sample2017 sample2022 sampleFormat i
           = (None, Some invalidPrePromotionGrade)).
Proof.
  split; [by vm_compute|]. split; [by vm_compute|].
  split; [by vm_compute|]. split; [by vm_compute|].
  intros [e He].
  pose proof (He (mkInputs 17 true 51740 14 24100) eq_refl) as H1.
  pose proof (He (mkInputs 17 true 51740 14 0) eq_refl) as H2.
  vm_compute in H1, H2.
  specialize (H1 eq_refl). specialize (H2 eq_refl). congruence.
Qed.

(** C3 (amended): for every input record with [wasPromoted] set, when the
    historical table has no entry for the pre-promotion grade the
    calculation fails: [calculateEnhancements] answers [null] and the
    request ends with no result and an error, the one on the pay fields when
    a pay is not positive and the generic one otherwise.  When the table has
    an entry and both pays are positive, the calculation succeeds and the
    baseline pay of its record is the supplied pre-promotion pay, verbatim,
    with the allowance computed from it: the entry of the table and the
    stage argument are not read, and no stage is detected. *)
Theorem promoted_baseline_verbatim (PAY_SCALE_2017 PAY_SCALE_2022 : PayScale)
    (intlFormat : Z → string) (i : SalaryInputs) (stage : option Z) :
  wasPromoted i = true →
  (PAY_SCALE_2017 !! prePromotionBps i = None →
     calculateEnhancements PAY_SCALE_2017 i stage = None ∧
     calculate PAY_SCALE_2017 PAY_SCALE_2022 intlFormat i =
       (None,
        Some (if (prePromotionBasicPay2017 i <=? 0)
                 || (currentRunningBasicPay i <=? 0)
              then MSG_PROMOTED_PAY else MSG_VERIFY_INPUTS))) ∧
  (is_Some (PAY_SCALE_2017 !! prePromotionBps i) →
   0 < prePromotionBasicPay2017 i → 0 < currentRunningBasicPay i →
   ∃ r : CalculatedValues,
     calculateEnhancements PAY_SCALE_2017 i stage = Some r ∧
     calculate PAY_SCALE_2017 PAY_SCALE_2022 intlFormat i = (Some r, None) ∧
     basic2017 r = prePromotionBasicPay2017 i ∧
     dra r = (number_of_Z (prePromotionBasicPay2017 i) * 0.30)%float ∧
     runningPayIncrease r
       = (number_of_Z (currentRunningBasicPay i) * 0.10)%float ∧
     totalIncrease r = (dra r + runningPayIncrease r)%float ∧
     currentBasicPay r = currentRunningBasicPay i) ∧
  stageEffect PAY_SCALE_2022 intlFormat i = (None, None).
Proof.
  intros Hp. split; [|split].
  - intros Habsent.
    assert (∀ st, calculateEnhancements PAY_SCALE_2017 i st = None) as Hnone.
    { intros st. unfold calculateEnhancements.
      by rewrite draBase_promoted, Habsent. }
    split; [done|]. rewrite calculate_promoted, Hnone by done.
    by destruct ((prePromotionBasicPay2017 i <=? 0)
                 || (currentRunningBasicPay i <=? 0)).
  - intros [payScale Hscale] Hb Hc.
    assert (∀ st, calculateEnhancements PAY_SCALE_2017 i st =
                  enhance (prePromotionBasicPay2017 i)
                          (currentRunningBasicPay i)) as Hcalc.
    { intros st. unfold calculateEnhancements.
      by rewrite draBase_promoted, Hscale. }
    eexists. split; [rewrite Hcalc; by apply enhance_positive|].
    split; [|done].
    rewrite calculate_promoted, Hcalc, enhance_positive by done.
    destruct (Z.leb_spec (prePromotionBasicPay2017 i) 0); [lia|].
    by destruct (Z.leb_spec (currentRunningBasicPay i) 0); [lia|].
  - unfold stageEffect. by rewrite Hp.
Qed.

Lemma promoted_baseline_verbatim_witness :
  ∃ r : CalculatedValues,
    calculateEnhancements sample2017 samplePromoted (Some 5) = Some r ∧
    calculate sample2017 sample2022 sampleFormat samplePromoted
      = (Some r, None) ∧
    basic2017 r = prePromotionBasicPay2017 samplePromoted ∧
    dra r
      = (number_of_Z (prePromotionBasicPay2017 samplePromoted) * 0.30)%float ∧
    runningPayIncrease r
      = (number_of_Z (currentRunningBasicPay samplePromoted) * 0.10)%float ∧
    totalIncrease r = (dra r + runningPayIncrease r)%float ∧
    currentBasicPay r = currentRunningBasicPay samplePromoted.
Proof.
  apply (promoted_baseline_verbatim sample2017 sample2022 sampleFormat
           samplePromoted (Some 5) eq_refl).
  - vm_compute. eauto.
  - simpl. lia.
  - simpl. lia.
Defined.

(** C6: for every input record with [wasPromoted] set whose pre-promotion
    pay or current pay is not positive, the calculation produces no result
    and shows the error on the pay fields of promoted cases;
    [calculateEnhancements] itself answers [null] on such a record, at the
    guard on the pay values (line 45) when the pre-promotion grade has a
    historical scale. *)
Theorem promoted_nonpositive_pay (PAY_SCALE_2017 PAY_SCALE_2022 : PayScale)
    (intlFormat : Z → string) (i : SalaryInputs) :
  wasPromoted i = true →
  prePromotionBasicPay2017 i ≤ 0 ∨ currentRunningBasicPay i ≤ 0 →
  calculate PAY_SCALE_2017 PAY_SCALE_2022 intlFormat i
    = (None, Some MSG_PROMOTED_PAY) ∧
  (∀ stage,
     calculateEnhancements PAY_SCALE_2017 i stage = None ∧
     (is_Some (PAY_SCALE_2017 !! prePromotionBps i) →
      calculateEnhancementsAt PAY_SCALE_2017 i stage = inl NoValidPay)) ∧
  (∀ st, inputs st = i →
     results (clickCalculate PAY_SCALE_2017 st) = None ∧
     JS.truthy (error (clickCalculate PAY_SCALE_2017 st)) = true ∧
     (JS.truthy (error st) = false →
      error (clickCalculate PAY_SCALE_2017 st) = Some MSG_PROMOTED_PAY)).
Proof.
  intros Hp Hle.
  assert ((prePromotionBasicPay2017 i <=? 0)
          || (currentRunningBasicPay i <=? 0) = true) as Hguard.
  { destruct (Z.leb_spec (prePromotionBasicPay2017 i) 0),
      (Z.leb_spec (currentRunningBasicPay i) 0); simpl; try done; lia. }
  split; [|split].
  - by rewrite calculate_promoted, Hguard.
  - intros stage. unfold calculateEnhancements, calculateEnhancementsAt,
      draBaseAt.
    rewrite draBase_promoted, Hp by done.
    destruct (PAY_SCALE_2017 !! prePromotionBps i);
      [|split; [done|by intros []]].
    by rewrite enhance_nonpositive.
  - intros st <-.
    unfold clickCalculate, handleCalculate, calculationError.
    rewrite Hp, Hguard. unfold JS.or.
    destruct (JS.truthy (error st)) eqn:He; simpl; by rewrite ?He.
Qed.

Lemma promoted_nonpositive_pay_witness :
  calculate sample2017 sample2022 sampleFormat (mkInputs 17 true 51740 15 0)
    = (None, Some MSG_PROMOTED_PAY) ∧
  (∀ stage,
     calculateEnhancements sample2017 (mkInputs 17 true 51740 15 0) stage
       = None ∧
     (is_Some (sample2017 !! prePromotionBps (mkInputs 17 true 51740 15 0)) →
      calculateEnhancementsAt sample2017 (mkInputs 17 true 51740 15 0) stage
        = inl NoValidPay)) ∧
  (∀ st, inputs st = mkInputs 17 true 51740 15 0 →
     results (clickCalculate sample2017 st) = None ∧
     JS.truthy (error (clickCalculate sample2017 st)) = true ∧
     (JS.truthy (error st) = false →
      error (clickCalculate sample2017 st) = Some MSG_PROMOTED_PAY)).
Proof.
  apply (promoted_nonpositive_pay sample2017 sample2022 sampleFormat
           (mkInputs 17 true 51740 15 0)).
  - reflexivity.
  - left. simpl. lia.
Defined.

(** ** The branch of an employee who was not promoted *)

(** C4: for every input record without [wasPromoted] whose stage resolves
    to index [s], the baseline pay is the value of the historical table for
    the grade at position [s]; when the grade is absent from the historical
    table, or [s] is out of range for the grade's historical sequence, the
    calculation fails: [calculateEnhancements] answers [null] at the check
    of the grade and stage (line 38) and the request ends with no result and
    the generic error. *)
Theorem historical_lookup (PAY_SCALE_2017 PAY_SCALE_2022 : PayScale)
    (intlFormat : Z → string) (i : SalaryInputs) (s : Z) :
  wasPromoted i = false →
  stageEffect PAY_SCALE_2022 intlFormat i = (Some s, None) →
  (∀ payScale2017 v,
     PAY_SCALE_2017 !! bps i = Some payScale2017 →
     payScale2017 !! Z.to_nat s = Some v →
     draBase PAY_SCALE_2017 i (Some s) = Some v ∧
     calculateEnhancements PAY_SCALE_2017 i (Some s) =
       enhance v (currentRunningBasicPay i) ∧
     (0 < v →
      ∃ r, calculateEnhancements PAY_SCALE_2017 i (Some s) = Some r ∧
           basic2017 r = v ∧
           calculate PAY_SCALE_2017 PAY_SCALE_2022 intlFormat i
             = (Some r, None))) ∧
  (PAY_SCALE_2017 !! bps i = None ∨
   (∃ payScale2017, PAY_SCALE_2017 !! bps i = Some payScale2017 ∧
                    Z.of_nat (length payScale2017) ≤ s) →
   calculateEnhancementsAt PAY_SCALE_2017 i (Some s) = inl InvalidBpsOrStage ∧
   calculateEnhancements PAY_SCALE_2017 i (Some s) = None ∧
   calculate PAY_SCALE_2017 PAY_SCALE_2022 intlFormat i
     = (None, Some MSG_VERIFY_INPUTS)).
Proof.
  intros Hp Hstage. unfold stageEffect in Hstage. rewrite Hp in Hstage.
  destruct (detectStage_Some _ _ _ _ _ _ Hstage)
    as (_ & Hpay & _ & _ & _ & Hs0 & _).
  pose proof (calculate_resolved PAY_SCALE_2017 _ _ i s Hp Hstage) as Hreq.
  split.
  - intros payScale2017 v Hscale Hv.
    assert (draBase PAY_SCALE_2017 i (Some s) = Some v) as Hbase.
    { rewrite draBase_stage, Hscale by done.
      pose proof (lookup_lt_Some _ _ _ Hv).
      destruct (Z.ltb_spec s 0); [lia|].
      destruct (Z.leb_spec (Z.of_nat (length payScale2017)) s); [lia|].
      done. }
    assert (calculateEnhancements PAY_SCALE_2017 i (Some s) =
              enhance v (currentRunningBasicPay i)) as Hcalc.
    { unfold calculateEnhancements. by rewrite Hbase. }
    split; [done|]. split; [done|].
    intros Hv0. eexists. rewrite Hreq, Hcalc.
    rewrite enhance_positive by done. by repeat split.
  - intros Hfail.
    assert (calculateEnhancementsAt PAY_SCALE_2017 i (Some s)
              = inl InvalidBpsOrStage) as Hat.
    { unfold calculateEnhancementsAt, draBaseAt. rewrite Hp.
      destruct Hfail as [->|(payScale2017 & -> & Hlen)]; [done|].
      destruct (Z.leb_spec (Z.of_nat (length payScale2017)) s); [|lia].
      by rewrite orb_true_r. }
    assert (calculateEnhancements PAY_SCALE_2017 i (Some s) = None) as Hcalc
      by (by rewrite calculateEnhancements_erasure, Hat).
    split; [done|]. split; [done|]. by rewrite Hreq, Hcalc.
Qed.

Lemma historical_lookup_witness :
  (∀ payScale2017 v,
     sample2017 !! bps sampleInputs = Some payScale2017 →
     payScale2017 !! Z.to_nat 9 = Some v →
     draBase sample2017 sampleInputs (Some 9) = Some v ∧
     calculateEnhancements sample2017 sampleInputs (Some 9) =
       enhance v (currentRunningBasicPay sampleInputs) ∧
     (0 < v →
      ∃ r, calculateEnhancements sample2017 sampleInputs (Some 9) = Some r ∧
           basic2017 r = v ∧
           calculate sample2017 sample2022 sampleFormat sampleInputs
             = (Some r, None))) ∧
  (sample2017 !! bps sampleInputs = None ∨
   (∃ payScale2017, sample2017 !! bps sampleInputs = Some payScale2017 ∧
                    Z.of_nat (length payScale2017) ≤ 9) →
   calculateEnhancementsAt sample2017 sampleInputs (Some 9)
     = inl InvalidBpsOrStage ∧
   calculateEnhancements sample2017 sampleInputs (Some 9) = None ∧
   calculate sample2017 sample2022 sampleFormat sampleInputs
     = (None, Some MSG_VERIFY_INPUTS)).
Proof.
  apply (historical_lookup sample2017 sample2022 sampleFormat sampleInputs 9).
  - reflexivity.
  - vm_compute. reflexivity.
Defined.

(** The historical sequence of a grade may be shorter than the current one:
    on the sample tables the last current stage of grade 16 (index 11) has
    no historical counterpart, and the request fails. *)
Example historical_lookup_out_of_range :
  stageEffect sample2022 sampleFormat (mkInputs 16 false 52220 15 24100)
    = (Some 11, None) ∧
  calculateEnhancementsAt sample2017 (mkInputs 16 false 52220 15 24100)
      (Some 11)
    = inl InvalidBpsOrStage ∧
  calculate sample2017 sample2022 sampleFormat
      (mkInputs 16 false 52220 15 24100)
    = (None, Some MSG_VERIFY_INPUTS).
Proof. by vm_compute. Qed.

(** ** Determinism and independence *)

(** A second click on the button leaves the state of the first. *)
Lemma clickCalculate_idempotent (PAY_SCALE_2017 : PayScale) (st : AppState) :
  clickCalculate PAY_SCALE_2017 (clickCalculate PAY_SCALE_2017 st)
    = clickCalculate PAY_SCALE_2017 st.
Proof.
  destruct st as [i r l e fs].
  unfold clickCalculate, handleCalculate, onTimeout, JS.or. simpl.
  destruct (JS.truthy e) eqn:He; simpl; [by rewrite He|].
  destruct (JS.truthy (calculationError i fs)) eqn:Hc; simpl;
    [by rewrite Hc|].
  destruct (calculateEnhancements PAY_SCALE_2017 i fs) eqn:Hcalc; simpl;
    [rewrite Hc; simpl; by rewrite Hcalc|done].
Qed.

(** The click reads the inputs, the error and the stage; the result and the
    loading flag of the state it starts from do not reach its outcome. *)
Lemma clickCalculate_reads (PAY_SCALE_2017 : PayScale) (st : AppState)
    (r : option CalculatedValues) (l : bool) :
  clickCalculate PAY_SCALE_2017
      (mkState (inputs st) r l (error st) (foundStage st))
    = clickCalculate PAY_SCALE_2017 st.
Proof. by destruct st. Qed.

(** C10: branch noninterference.  Two input records that agree on the
    promotion flag, on the current pay and on the fields of their branch
    get the same outcome.  When promoted, the current grade and the stage
    may differ; when not promoted, the pre-promotion grade and the
    pre-promotion pay may differ. *)
Theorem branch_noninterference (PAY_SCALE_2017 PAY_SCALE_2022 : PayScale)
    (intlFormat : Z → string) (i1 i2 : SalaryInputs) :
  agreeOnBranch i1 i2 →
  (∀ s1 s2 : option Z,
     (wasPromoted i1 = false → s1 = s2) →
     calculateEnhancements PAY_SCALE_2017 i1 s1
       = calculateEnhancements PAY_SCALE_2017 i2 s2) ∧
  calculate PAY_SCALE_2017 PAY_SCALE_2022 intlFormat i1
    = calculate PAY_SCALE_2017 PAY_SCALE_2022 intlFormat i2.
Proof.
  destruct i1 as [b1 p1 c1 pb1 pp1], i2 as [b2 p2 c2 pb2 pp2].
  unfold agreeOnBranch. simpl. intros (<- & <- & Hbranch).
  destruct p1.
  - destruct Hbranch as [<- <-].
    assert (∀ s1 s2,
              calculateEnhancements PAY_SCALE_2017
                  (mkInputs b1 true c1 pb1 pp1) s1
                = calculateEnhancements PAY_SCALE_2017
                    (mkInputs b2 true c1 pb1 pp1) s2) as Hcalc by done.
    split; [intros s1 s2 _; apply Hcalc|].
    rewrite !calculate_promoted by done. simpl. by rewrite (Hcalc None None).
  - destruct Hbranch as [].
    split; [by intros s1 s2 ->|].
    unfold calculate, runStageEffect, stageEffect, clickCalculate,
      handleCalculate, calculationError, onTimeout. simpl.
    destruct (detectStage PAY_SCALE_2022 intlFormat b1 c1) as [stage err].
    simpl.
    destruct (JS.truthy err || JS.truthy
                (match stage with
                 | Some _ => None
                 | None => Some MSG_STAGE_MISSING
                 end)); simpl; [done|].
    change (calculateEnhancements PAY_SCALE_2017
              (mkInputs b1 false c1 pb2 pp2) stage)
      with (calculateEnhancements PAY_SCALE_2017
              (mkInputs b1 false c1 pb1 pp1) stage).
    by destruct (calculateEnhancements PAY_SCALE_2017
                   (mkInputs b1 false c1 pb1 pp1) stage).
Qed.

Lemma branch_noninterference_witness :
  (∀ s1 s2 : option Z,
     (wasPromoted samplePromoted = false → s1 = s2) →
     calculateEnhancements sample2017 samplePromoted s1
       = calculateEnhancements sample2017 (mkInputs 3 true 51740 15 24100) s2) ∧
  calculate sample2017 sample2022 sampleFormat samplePromoted
    = calculate sample2017 sample2022 sampleFormat
        (mkInputs 3 true 51740 15 24100).
Proof.
  apply (branch_noninterference sample2017 sample2022 sampleFormat
           samplePromoted (mkInputs 3 true 51740 15 24100)).
  unfold agreeOnBranch. simpl. done.
Defined.

(** The other branch, on the sample tables: the pre-promotion fields of an
    employee who was not promoted do not reach the outcome. *)
Example not_promoted_ignores_pre_promotion :
  calculate sample2017 sample2022 sampleFormat (mkInputs 16 false 47700 2 0)
    = calculate sample2017 sample2022 sampleFormat sampleInputs.
Proof. by vm_compute. Qed.

(** * Further properties of the program *)

(** ** Outcomes of the stage detection *)

Section DetectionOutcomes.

Variable PAY_SCALE_2022 : PayScale.
Variable intlFormat : Z → string.

Local Abbreviation detect := (detectStage PAY_SCALE_2022 intlFormat).

(** What led to a stored stage. *)
Lemma detectStage_Some_scan (bps pay s : Z) (err : option string) :
  detect bps pay = (Some s, err) →
  ∃ (payScale : list Z) (k : nat) (m : Z),
    PAY_SCALE_2022 !! bps = Some payScale ∧ s = Z.of_nat k ∧
    scanStages pay payScale (length payScale) = Z.of_nat k ∧
    (k < length payScale)%nat ∧
    payScale !! 0%nat = Some m ∧ m ≤ pay ∧
    0 < pay ∧ 0 < bps ∧ err = None.
Proof.
  unfold detectStage.
  destruct (Z.ltb_spec 0 pay), (Z.ltb_spec 0 bps); simpl; try done.
  destruct (PAY_SCALE_2022 !! bps) as [payScale|]; [|done].
  destruct (JS.lt pay (payScale !! 0%nat)) eqn:Hmin; [done|].
  destruct (scanStages_range pay payScale (length payScale))
    as [Hnone|(k & Hk & Hlt)].
  - by rewrite Hnone.
  - rewrite Hk.
    destruct (Z.eqb_spec (Z.of_nat k) (-1)) as [|_]; [lia|]. simpl.
    intros [= <- <-].
    destruct (lookup_lt_is_Some_2 payScale 0) as [m Hm]; [lia|].
    rewrite Hm in Hmin. simpl in Hmin. apply Z.ltb_ge in Hmin.
    by exists payScale, k, m.
Qed.

(** Every error the effect stores is a text that is not empty. *)
Lemma detectStage_error_truthy (bps pay : Z) (stage : option Z) (e : string) :
  detect bps pay = (stage, Some e) → JS.truthy (Some e) = true.
Proof.
  unfold detectStage.
  destruct ((0 <? pay) && (0 <? bps)); [|done].
  destruct (PAY_SCALE_2022 !! bps) as [payScale|]; [|by intros [= <- <-]].
  destruct (JS.lt pay (payScale !! 0%nat)); [by intros [= <- <-]|].
  destruct (negb _); [done|by intros [= <- <-]].
Qed.

End DetectionOutcomes.

(** X1: a higher pay is never given a lower stage.  When a pay resolves to a
    stage of its grade, every pay at or above it resolves too, to the same
    stage or a later one. *)
Theorem detectStage_monotone (PAY_SCALE_2022 : PayScale)
    (intlFormat : Z → string) (bps pay1 pay2 s1 : Z) :
  detectStage PAY_SCALE_2022 intlFormat bps pay1 = (Some s1, None) →
  pay1 ≤ pay2 →
  ∃ s2 : Z,
    detectStage PAY_SCALE_2022 intlFormat bps pay2 = (Some s2, None) ∧
    s1 ≤ s2.
Proof.
  intros Hs1 Hle.
  destruct (detectStage_Some_scan _ _ _ _ _ _ Hs1)
    as (payScale & k & m & Hscale & -> & Hscan & Hk & Hm & Hmin & Hpay & Hbps & _).
  destruct (scanStages_le _ _ _ _ Hscan) as (v & Hv & Hvle).
  destruct (detectStage_highest PAY_SCALE_2022 intlFormat bps pay2 payScale m)
    as (s & Hs & _ & _ & Habove); try done; try lia.
  exists (Z.of_nat s). split; [done|].
  destruct (decide (k ≤ s)%nat) as [|Hgt]; [lia|].
  pose proof (Habove k v ltac:(lia) Hv). lia.
Qed.

Lemma detectStage_monotone_witness :
  ∃ s2 : Z,
    detectStage sample2022 sampleFormat 16 50000 = (Some s2, None) ∧ 9 ≤ s2.
Proof.
  apply (detectStage_monotone sample2022 sampleFormat 16 47700 50000 9);
    [vm_compute; reflexivity | lia].
Defined.

(** X2: on a sequence that does not decrease the floor stage is unique, and
    it is the one detected: for a positive grade and a positive pay, a stage
    tabulated at or below the pay that is the last one, or is followed by a
    stage tabulated above the pay, is the stage the effect stores. *)
Theorem detectStage_unique_floor (PAY_SCALE_2022 : PayScale)
    (intlFormat : Z → string) (bps pay : Z) (payScale : list Z) (s : nat) :
  0 < bps → 0 < pay →
  PAY_SCALE_2022 !! bps = Some payScale →
  nondecreasing payScale →
  FloorStage payScale pay s →
  detectStage PAY_SCALE_2022 intlFormat bps pay = (Some (Z.of_nat s), None).
Proof.
  intros Hbps Hpay Hscale Hmono [(v & Hv & Hvle) Hnext].
  destruct (lookup_lt_is_Some_2 payScale 0) as [m Hm].
  { apply lookup_lt_Some in Hv. lia. }
  pose proof (Hmono 0%nat s m v ltac:(lia) Hm Hv) as Hmv.
  destruct (detectStage_highest PAY_SCALE_2022 intlFormat bps pay payScale m)
    as (k & Hk & Hklen & (w & Hw & Hwle) & Habove); try done; try lia.
  destruct (Nat.lt_trichotomy k s) as [Hlt|[->|Hgt]]; [|done|].
  - pose proof (Habove s v Hlt Hv). lia.
  - destruct Hnext as [Hlast|(x & Hx & Hxgt)]; [lia|].
    pose proof (Hmono (S s) k x w ltac:(lia) Hx Hw). lia.
Qed.

Lemma detectStage_unique_floor_witness :
  detectStage sample2022 sampleFormat 16 48000 = (Some (Z.of_nat 9), None).
Proof.
  apply (detectStage_unique_floor sample2022 sampleFormat 16 48000
           stages2022_16 9);
    [lia | lia | vm_compute; reflexivity | by apply nondecreasingb_correct |].
  split.
  - exists 47700. split; [reflexivity | lia].
  - right. exists 49960. split; [reflexivity | lia].
Defined.

(** X3: for a positive pay and a positive grade that the current table
    knows, the effect stores the fallback error of line 191 exactly when the
    stage sequence of the grade is empty. *)
Theorem detectStage_fallback_iff_empty (PAY_SCALE_2022 : PayScale)
    (intlFormat : Z → string) (bps pay : Z) (payScale : list Z) :
  0 < bps → 0 < pay →
  PAY_SCALE_2022 !! bps = Some payScale →
  detectStage PAY_SCALE_2022 intlFormat bps pay = (None, Some MSG_NO_STAGE)
  ↔ payScale = [].
Proof.
  intros Hbps Hpay Hscale. split.
  - destruct payScale as [|m rest]; [done|]. intros Hfallback.
    destruct (Z.lt_ge_cases pay m) as [Hlt|Hge].
    + revert Hfallback. unfold detectStage.
      rewrite (proj2 (Z.ltb_lt 0 pay) Hpay), (proj2 (Z.ltb_lt 0 bps) Hbps).
      simpl. rewrite Hscale. simpl.
      rewrite (proj2 (Z.ltb_lt pay m) Hlt). discriminate.
    + destruct (detectStage_highest PAY_SCALE_2022 intlFormat bps pay
                  (m :: rest) m) as (s & Hs & _); try done.
      rewrite Hs in Hfallback. done.
  - intros ->. unfold detectStage.
    rewrite (proj2 (Z.ltb_lt 0 pay) Hpay), (proj2 (Z.ltb_lt 0 bps) Hbps).
    simpl. by rewrite Hscale.
Qed.

Lemma detectStage_fallback_iff_empty_witness :
  detectStage emptyStageScale sampleFormat 1 100 = (None, Some MSG_NO_STAGE)
  ↔ ([] : list Z) = [].
Proof.
  apply (detectStage_fallback_iff_empty emptyStageScale sampleFormat 1 100 []);
    [lia | lia | vm_compute; reflexivity].
Defined.

(** X4: the effect stores neither a stage nor an error exactly when the pay
    or the grade is not positive; on every other input the user is told a
    stage or an error. *)
Theorem detectStage_silent_iff (PAY_SCALE_2022 : PayScale)
    (intlFormat : Z → string) (bps pay : Z) :
  detectStage PAY_SCALE_2022 intlFormat bps pay = (None, None)
  ↔ pay ≤ 0 ∨ bps ≤ 0.
Proof.
  split; [|apply detectStage_guard].
  unfold detectStage.
  destruct (Z.ltb_spec 0 pay), (Z.ltb_spec 0 bps); simpl; try (intros; lia).
  destruct (PAY_SCALE_2022 !! bps) as [payScale|]; [|done].
  destruct (JS.lt pay (payScale !! 0%nat)); [done|].
  by destruct (negb _).
Qed.

(** X5: a pay at or above the value of the last stage (and not below the
    stage-0 value) is given the last stage: the scan has no upper bound. *)
Theorem detectStage_top (PAY_SCALE_2022 : PayScale) (intlFormat : Z → string)
    (bps pay : Z) (payScale : list Z) (m top : Z) :
  0 < bps → 0 < pay →
  PAY_SCALE_2022 !! bps = Some payScale →
  payScale !! 0%nat = Some m → m ≤ pay →
  last payScale = Some top → top ≤ pay →
  detectStage PAY_SCALE_2022 intlFormat bps pay =
    (Some (Z.of_nat (length payScale) - 1), None).
Proof.
  intros Hbps Hpay Hscale Hm Hmin Htop Hle.
  rewrite last_lookup in Htop.
  destruct (length payScale) as [|n] eqn:Hlen.
  { apply lookup_lt_Some in Hm. lia. }
  simpl in Htop.
  replace (Z.of_nat (S n) - 1) with (Z.of_nat n) by lia.
  apply (detectStage_scan PAY_SCALE_2022 intlFormat bps pay payScale n);
    try done.
  - rewrite Hm. simpl. by apply Z.ltb_ge.
  - rewrite Hlen. simpl. rewrite Htop. simpl.
    by rewrite (proj2 (Z.leb_le top pay) Hle).
Qed.

Lemma detectStage_top_witness :
  detectStage sample2022 sampleFormat 16 999999 =
    (Some (Z.of_nat (length stages2022_16) - 1), None).
Proof.
  apply (detectStage_top sample2022 sampleFormat 16 999999 stages2022_16
           27360 52220);
    [lia | lia | vm_compute; reflexivity | reflexivity | lia
    | reflexivity | lia].
Defined.

(** A positive pay on a positive grade that the current table does not
    know. *)
Lemma detectStage_invalid_bps_lookup (PAY_SCALE_2022 : PayScale)
    (intlFormat : Z → string) (bps pay : Z) :
  0 < pay → 0 < bps → PAY_SCALE_2022 !! bps = None →
  detectStage PAY_SCALE_2022 intlFormat bps pay = (None, Some MSG_INVALID_BPS).
Proof.
  intros Hpay Hbps Hscale. unfold detectStage.
  rewrite (proj2 (Z.ltb_lt 0 pay) Hpay), (proj2 (Z.ltb_lt 0 bps) Hbps).
  simpl. by rewrite Hscale.
Qed.

(** X6: the effect stores the error [Invalid BPS selected.] exactly when the
    pay and the grade are positive and the current table has no entry for
    the grade. *)
Theorem detectStage_invalid_bps_iff (PAY_SCALE_2022 : PayScale)
    (intlFormat : Z → string) (bps pay : Z) :
  detectStage PAY_SCALE_2022 intlFormat bps pay = (None, Some MSG_INVALID_BPS)
  ↔ 0 < pay ∧ 0 < bps ∧ PAY_SCALE_2022 !! bps = None.
Proof.
  unfold detectStage.
  destruct (Z.ltb_spec 0 pay), (Z.ltb_spec 0 bps); simpl;
    try (split; [done|lia]).
  destruct (PAY_SCALE_2022 !! bps) as [payScale|]; [|done].
  split; [|by intros (_ & _ & ?)].
  destruct (JS.lt pay (payScale !! 0%nat)); [discriminate|].
  by destruct (negb _).
Qed.

(** ** Results of [calculateEnhancements] *)

(** What [enhance] answers is a record of the two pays it was given, both
    positive. *)
Lemma enhance_Some (basic currentPay : Z) (r : CalculatedValues) :
  enhance basic currentPay = Some r →
  0 < basic ∧ 0 < currentPay ∧
  r = mkValues basic
        (number_of_Z basic * 0.30)%float
        (number_of_Z currentPay * 0.10)%float
        (number_of_Z basic * 0.30 + number_of_Z currentPay * 0.10)%float
        currentPay.
Proof.
  unfold enhance.
  destruct (Z.leb_spec basic 0), (Z.leb_spec currentPay 0); simpl; try done.
  by intros [= <-].
Qed.

(** X7: when [calculateEnhancements] succeeds.  It returns a record exactly
    when the current pay is positive and its branch finds a positive base:
    for a promoted employee the supplied pre-promotion pay, provided the
    historical table knows the pre-promotion grade; otherwise the historical
    value of the grade at a stage index that is given, not negative and
    inside the historical sequence.  The record is then the one of that base
    and the current pay. *)
Theorem calculateEnhancements_Some_iff (PAY_SCALE_2017 : PayScale)
    (i : SalaryInputs) (stage : option Z) (r : CalculatedValues) :
  calculateEnhancements PAY_SCALE_2017 i stage = Some r
  ↔ ∃ base : Z,
      0 < base ∧ 0 < currentRunningBasicPay i ∧
      enhance base (currentRunningBasicPay i) = Some r ∧
      if wasPromoted i
      then is_Some (PAY_SCALE_2017 !! prePromotionBps i) ∧
           base = prePromotionBasicPay2017 i
      else ∃ (s : Z) (payScale : list Z),
             stage = Some s ∧ 0 ≤ s ∧
             PAY_SCALE_2017 !! bps i = Some payScale ∧
             payScale !! Z.to_nat s = Some base.
Proof.
  unfold calculateEnhancements, draBase. split.
  - destruct (wasPromoted i).
    + destruct (PAY_SCALE_2017 !! prePromotionBps i) eqn:Hscale; [|done].
      intros Hr. destruct (enhance_Some _ _ _ Hr) as (Hb & Hc & _).
      exists (prePromotionBasicPay2017 i). by repeat split.
    + destruct stage as [s|]; [|done].
      destruct (PAY_SCALE_2017 !! bps i) as [payScale|]; [|done].
      destruct (Z.ltb_spec s 0); simpl; [done|].
      destruct (Z.leb_spec (Z.of_nat (length payScale)) s); [done|].
      destruct (payScale !! Z.to_nat s) as [base|] eqn:Hbase; [|done].
      intros Hr. destruct (enhance_Some _ _ _ Hr) as (Hb & Hc & _).
      exists base. repeat split; try done. by exists s, payScale.
  - intros (base & Hb & Hc & Hr & Hbranch).
    destruct (wasPromoted i).
    + destruct Hbranch as [[payScale ->] <-]. done.
    + destruct Hbranch as (s & payScale & -> & Hs & -> & Hbase).
      pose proof (lookup_lt_Some _ _ _ Hbase).
      destruct (Z.ltb_spec s 0); [lia|].
      destruct (Z.leb_spec (Z.of_nat (length payScale)) s); [lia|].
      simpl. by rewrite Hbase.
Qed.

(** X8: every record [calculateEnhancements] returns carries a positive
    base pay and the positive current pay of the inputs, and its three
    amounts are 30% of the base, 10% of the current pay and their sum: no
    record is returned on a pay of zero or below. *)
Theorem calculateEnhancements_record (PAY_SCALE_2017 : PayScale)
    (i : SalaryInputs) (stage : option Z) (r : CalculatedValues) :
  calculateEnhancements PAY_SCALE_2017 i stage = Some r →
  0 < basic2017 r ∧
  currentBasicPay r = currentRunningBasicPay i ∧
  0 < currentRunningBasicPay i ∧
  dra r = (number_of_Z (basic2017 r) * 0.30)%float ∧
  runningPayIncrease r = (number_of_Z (currentBasicPay r) * 0.10)%float ∧
  totalIncrease r = (dra r + runningPayIncrease r)%float.
Proof.
  unfold calculateEnhancements.
  destruct (draBase PAY_SCALE_2017 i stage) as [base|]; [|done].
  intros Hr. destruct (enhance_Some _ _ _ Hr) as (Hb & Hc & ->). done.
Qed.

Lemma calculateEnhancements_record_witness :
  0 < basic2017 (mkValues 34270 10281 4770 15051 47700) ∧
  currentBasicPay (mkValues 34270 10281 4770 15051 47700)
    = currentRunningBasicPay sampleInputs ∧
  0 < currentRunningBasicPay sampleInputs ∧
  dra (mkValues 34270 10281 4770 15051 47700)
    = (number_of_Z (basic2017 (mkValues 34270 10281 4770 15051 47700))
       * 0.30)%float ∧
  runningPayIncrease (mkValues 34270 10281 4770 15051 47700)
    = (number_of_Z (currentBasicPay (mkValues 34270 10281 4770 15051 47700))
       * 0.10)%float ∧
  totalIncrease (mkValues 34270 10281 4770 15051 47700)
    = (dra (mkValues 34270 10281 4770 15051 47700)
       + runningPayIncrease (mkValues 34270 10281 4770 15051 47700))%float.
Proof.
  apply (calculateEnhancements_record sample2017 sampleInputs (Some 9)).
  vm_compute. reflexivity.
Defined.

(** ** Outcomes of a request *)

Section RequestOutcomes.

Variable PAY_SCALE_2017 : PayScale.
Variable PAY_SCALE_2022 : PayScale.
Variable intlFormat : Z → string.

Local Abbreviation request :=
  (calculate PAY_SCALE_2017 PAY_SCALE_2022 intlFormat).

(** A request on a record for which the effect stored an error. *)
Lemma calculate_effect_error (i : SalaryInputs) (stage : option Z)
    (e : string) :
  stageEffect PAY_SCALE_2022 intlFormat i = (stage, Some e) →
  JS.truthy (Some e) = true ∧ request i = (None, Some e).
Proof.
  intros Heff.
  assert (JS.truthy (Some e) = true) as He.
  { unfold stageEffect in Heff. destruct (wasPromoted i); [done|].
    by apply (detectStage_error_truthy _ _ _ _ _ _ Heff). }
  split; [done|].
  destruct e as [|c e]; [done|].
  unfold calculate, runStageEffect, clickCalculate, handleCalculate, JS.or.
  simpl. by rewrite Heff.
Qed.

(** A request on a record of an employee who was not promoted, for which
    the effect stored nothing. *)
Lemma calculate_silent (i : SalaryInputs) :
  wasPromoted i = false →
  stageEffect PAY_SCALE_2022 intlFormat i = (None, None) →
  request i = (None, Some MSG_STAGE_MISSING).
Proof.
  intros Hp Heff.
  unfold calculate, runStageEffect, clickCalculate, handleCalculate,
    calculationError, JS.or.
  simpl. rewrite Heff. simpl. by rewrite Hp.
Qed.

(** The request, case by case on what the effect stored. *)
Lemma calculate_cases (i : SalaryInputs) :
  (∃ e, JS.truthy (Some e) = true ∧ request i = (None, Some e)) ∨
  request i =
    shown (calculateEnhancements PAY_SCALE_2017 i
             (fst (stageEffect PAY_SCALE_2022 intlFormat i))).
Proof.
  destruct (stageEffect PAY_SCALE_2022 intlFormat i) as [stage [e|]] eqn:Heff.
  { left. exists e. by apply (calculate_effect_error i stage). }
  destruct (wasPromoted i) eqn:Hp.
  - assert (stage = None) as ->.
    { unfold stageEffect in Heff. rewrite Hp in Heff. congruence. }
    rewrite calculate_promoted by done.
    destruct ((prePromotionBasicPay2017 i <=? 0)
              || (currentRunningBasicPay i <=? 0)); [|by right].
    left. by exists MSG_PROMOTED_PAY.
  - destruct stage as [s|].
    + right. simpl. apply calculate_resolved; [done|].
      unfold stageEffect in Heff. by rewrite Hp in Heff.
    + left. exists MSG_STAGE_MISSING. split; [done|].
      by apply calculate_silent.
Qed.

End RequestOutcomes.

(** X9: a request ends with exactly one of a result and an error: either a
    record and no error, or no record and an error text that is not
    empty. *)
Theorem calculate_result_xor_error (PAY_SCALE_2017 PAY_SCALE_2022 : PayScale)
    (intlFormat : Z → string) (i : SalaryInputs) :
  (∃ r, calculate PAY_SCALE_2017 PAY_SCALE_2022 intlFormat i = (Some r, None))
  ∨
  (∃ e, calculate PAY_SCALE_2017 PAY_SCALE_2022 intlFormat i = (None, Some e)
        ∧ JS.truthy (Some e) = true).
Proof.
  destruct (calculate_cases PAY_SCALE_2017 PAY_SCALE_2022 intlFormat i)
    as [(e & He & Hreq)|Hreq].
  - right. by exists e.
  - rewrite Hreq.
    destruct (calculateEnhancements PAY_SCALE_2017 i _) as [r|].
    + left. by exists r.
    + right. by exists MSG_VERIFY_INPUTS.
Qed.

(** X10: the checks of [handleCalculate] never reject what
    [calculateEnhancements] accepts.  A request returns a record exactly
    when [calculateEnhancements] returns it on the inputs and the stage that
    the effect stored. *)
Theorem calculate_Some_iff (PAY_SCALE_2017 PAY_SCALE_2022 : PayScale)
    (intlFormat : Z → string) (i : SalaryInputs) (r : CalculatedValues) :
  calculate PAY_SCALE_2017 PAY_SCALE_2022 intlFormat i = (Some r, None)
  ↔ calculateEnhancements PAY_SCALE_2017 i
      (fst (stageEffect PAY_SCALE_2022 intlFormat i)) = Some r.
Proof.
  destruct (stageEffect PAY_SCALE_2022 intlFormat i) as [stage err] eqn:Heff.
  simpl.
  destruct err as [e|].
  { destruct (calculate_effect_error PAY_SCALE_2017 _ _ i stage e Heff)
      as [_ ->].
    split; [done|]. intros Hr.
    unfold stageEffect in Heff.
    destruct (wasPromoted i) eqn:Hp; [done|].
    destruct stage as [s|].
    - by destruct (detectStage_Some_scan _ _ _ _ _ _ Heff)
        as (? & ? & ? & ? & ? & ? & ? & ? & ? & ? & ? & ?).
    - revert Hr. unfold calculateEnhancements, draBase. by rewrite Hp. }
  destruct (wasPromoted i) eqn:Hp.
  - assert (stage = None) as ->.
    { unfold stageEffect in Heff. rewrite Hp in Heff. congruence. }
    rewrite calculate_promoted by done.
    destruct ((prePromotionBasicPay2017 i <=? 0)
              || (currentRunningBasicPay i <=? 0)) eqn:Hguard.
    + split; [done|]. unfold calculateEnhancements.
      rewrite draBase_promoted by done.
      destruct (PAY_SCALE_2017 !! prePromotionBps i); [|done].
      intros Hr. destruct (enhance_Some _ _ _ Hr) as (Hb & Hc & _).
      apply orb_true_iff in Hguard as [Hle|Hle]; apply Z.leb_le in Hle; lia.
    + destruct (calculateEnhancements PAY_SCALE_2017 i None); simpl;
        split; congruence.
  - destruct stage as [s|].
    + rewrite (calculate_resolved PAY_SCALE_2017 _ _ i s Hp)
        by (unfold stageEffect in Heff; by rewrite Hp in Heff).
      destruct (calculateEnhancements PAY_SCALE_2017 i (Some s)); simpl;
        split; congruence.
    + rewrite (calculate_silent PAY_SCALE_2017 _ _ i Hp Heff).
      split; [done|].
      unfold calculateEnhancements, draBase. by rewrite Hp.
Qed.

(** X11: the errors of a request for an employee who was not promoted.  A
    pay or a grade that is not positive gives the stage-missing error of the
    handler; a positive pay on a positive grade that the current table does
    not know gives [Invalid BPS selected.]; a positive pay below the stage-0
    value of a known positive grade gives the below-minimum error.  No
    result is produced in any of the three cases. *)
Theorem not_promoted_errors (PAY_SCALE_2017 PAY_SCALE_2022 : PayScale)
    (intlFormat : Z → string) (i : SalaryInputs) :
  wasPromoted i = false →
  (currentRunningBasicPay i ≤ 0 ∨ bps i ≤ 0 →
   calculate PAY_SCALE_2017 PAY_SCALE_2022 intlFormat i
     = (None, Some MSG_STAGE_MISSING)) ∧
  (0 < currentRunningBasicPay i → 0 < bps i →
   PAY_SCALE_2022 !! bps i = None →
   calculate PAY_SCALE_2017 PAY_SCALE_2022 intlFormat i
     = (None, Some MSG_INVALID_BPS)) ∧
  (∀ payScale m,
     0 < currentRunningBasicPay i → 0 < bps i →
     PAY_SCALE_2022 !! bps i = Some payScale →
     payScale !! 0%nat = Some m → currentRunningBasicPay i < m →
     calculate PAY_SCALE_2017 PAY_SCALE_2022 intlFormat i
       = (None, Some (belowMinimumMessage intlFormat (bps i) (Some m)))).
Proof.
  intros Hp. split; [|split].
  - intros Hguard. apply calculate_silent; [done|].
    unfold stageEffect. rewrite Hp. by apply detectStage_guard.
  - intros Hpay Hbps Hscale.
    apply (calculate_effect_error PAY_SCALE_2017 _ _ i None).
    unfold stageEffect. rewrite Hp.
    by apply detectStage_invalid_bps_lookup.
  - intros payScale m Hpay Hbps Hscale Hm Hlt.
    apply (calculate_effect_error PAY_SCALE_2017 _ _ i None).
    unfold stageEffect, detectStage. rewrite Hp.
    rewrite (proj2 (Z.ltb_lt 0 _) Hpay), (proj2 (Z.ltb_lt 0 _) Hbps).
    simpl. rewrite Hscale, Hm. simpl.
    by rewrite (proj2 (Z.ltb_lt _ m) Hlt).
Qed.

Lemma not_promoted_errors_witness :
  (currentRunningBasicPay (mkInputs 16 false 1000 15 24100) ≤ 0
   ∨ bps (mkInputs 16 false 1000 15 24100) ≤ 0 →
   calculate sample2017 sample2022 sampleFormat
       (mkInputs 16 false 1000 15 24100)
     = (None, Some MSG_STAGE_MISSING)) ∧
  (0 < currentRunningBasicPay (mkInputs 16 false 1000 15 24100) →
   0 < bps (mkInputs 16 false 1000 15 24100) →
   sample2022 !! bps (mkInputs 16 false 1000 15 24100) = None →
   calculate sample2017 sample2022 sampleFormat
       (mkInputs 16 false 1000 15 24100)
     = (None, Some MSG_INVALID_BPS)) ∧
  (∀ payScale m,
     0 < currentRunningBasicPay (mkInputs 16 false 1000 15 24100) →
     0 < bps (mkInputs 16 false 1000 15 24100) →
     sample2022 !! bps (mkInputs 16 false 1000 15 24100) = Some payScale →
     payScale !! 0%nat = Some m →
     currentRunningBasicPay (mkInputs 16 false 1000 15 24100) < m →
     calculate sample2017 sample2022 sampleFormat
         (mkInputs 16 false 1000 15 24100)
       = (None,
          Some (belowMinimumMessage sampleFormat
                  (bps (mkInputs 16 false 1000 15 24100)) (Some m)))).
Proof.
  apply (not_promoted_errors sample2017 sample2022 sampleFormat
           (mkInputs 16 false 1000 15 24100)).
  reflexivity.
Defined.

(** ** The component and its events *)

Section ComponentInvariant.

Variable PAY_SCALE_2017 : PayScale.
Variable PAY_SCALE_2022 : PayScale.
Variable intlFormat : Z → string.
Variable parseInt : string → Parsed.

Local Abbreviation effect := (stageEffect PAY_SCALE_2022 intlFormat).
Local Abbreviation Inv := (AppInvariant PAY_SCALE_2022 intlFormat).
Local Abbreviation step1 :=
  (step PAY_SCALE_2017 PAY_SCALE_2022 intlFormat parseInt).
Local Abbreviation runAll :=
  (run PAY_SCALE_2017 PAY_SCALE_2022 intlFormat parseInt).
Local Abbreviation mounted := (mount PAY_SCALE_2022 intlFormat).

(** The effect reads its three dependencies only. *)
Lemma stageEffect_deps (i1 i2 : SalaryInputs) :
  bps i1 = bps i2 →
  currentRunningBasicPay i1 = currentRunningBasicPay i2 →
  wasPromoted i1 = wasPromoted i2 →
  effect i1 = effect i2.
Proof. unfold stageEffect. by intros -> -> ->. Qed.

Lemma depsChanged_false (old new : SalaryInputs) (oldSigns newSigns : bool * bool) :
  depsChanged old oldSigns new newSigns = false →
  bps old = bps new ∧
  currentRunningBasicPay old = currentRunningBasicPay new ∧
  wasPromoted old = wasPromoted new.
Proof.
  unfold depsChanged. intros H. apply negb_false_iff in H.
  repeat (apply andb_true_iff in H as [H ?]).
  repeat split; [by apply Z.eqb_eq | by apply Z.eqb_eq | by apply eqb_prop].
Qed.

Lemma runStageEffect_cells (st : AppState) :
  runStageEffect PAY_SCALE_2022 intlFormat st =
    mkState (inputs st) (results st) (isLoading st)
            (snd (effect (inputs st))) (fst (effect (inputs st))).
Proof. unfold runStageEffect. by destruct (effect (inputs st)). Qed.

Lemma mount_invariant (i : SalaryInputs) : Inv (mounted i).
Proof.
  unfold AppInvariant, mount. rewrite runStageEffect_cells. simpl.
  repeat split; try done; lia.
Qed.

Lemma step_invariant (e : Event) (a : App) : Inv a → Inv (step1 e a).
Proof.
  destruct a as [[i r l err fs] signs ts].
  unfold AppInvariant. simpl. intros (Hstage & Hone & Hload & Hwait & Hres).
  destruct e as [target value checked| |]; simpl.
  - unfold handleInputChange. simpl.
    destruct (depsChanged _ _ _ _) eqn:Hdeps.
    + rewrite runStageEffect_cells. simpl. by split_and!.
    + simpl. split_and!; try done.
      destruct (depsChanged_false _ _ _ _ Hdeps) as (Hb & Hc & Hp).
      rewrite Hstage. f_equal. by apply stageEffect_deps.
  - unfold buttonDisabled, handleCalculate. simpl.
    destruct l; simpl; [by split_and!|].
    destruct (JS.truthy err) eqn:Herr; simpl; [by split_and!|].
    assert (ts = []) as ->.
    { destruct ts as [|closure ts]; [done|].
      by assert (false = true) by (by apply Hload). }
    destruct (JS.truthy (calculationError i fs)); simpl.
    + split_and!; try done; simpl; lia.
    + split_and!; try done; simpl; lia.
  - destruct ts as [|closure rest]; simpl; [by split_and!|].
    assert (rest = []) as -> by (destruct rest; [done|simpl in Hone; lia]).
    assert (r = None) as -> by (by apply Hwait).
    unfold onTimeout.
    destruct (calculateEnhancements PAY_SCALE_2017 _ _); simpl;
      split_and!; try done; simpl; lia.
Qed.

Lemma run_invariant (events : list Event) (a : App) :
  Inv a → Inv (runAll events a).
Proof.
  revert a. induction events as [|e events IH]; intros a Ha; [done|].
  simpl. apply IH. by apply step_invariant.
Qed.

(** The outcome of a click and its timer on a component just mounted, or
    left as if just mounted by a run of the effect. *)
Lemma fresh_request (i : SalaryInputs) (signs : bool * bool) :
  let a := runAll [Click; Timeout]
             (mkApp (runStageEffect PAY_SCALE_2022 intlFormat
                       (mkState i None false None None)) signs []) in
  (results (cells a), error (cells a))
    = calculate PAY_SCALE_2017 PAY_SCALE_2022 intlFormat i
  ∧ timers a = [].
Proof.
  simpl. unfold calculate. rewrite runStageEffect_cells. simpl.
  destruct (effect i) as [stage err]. simpl.
  unfold run, step, clickCalculate, buttonDisabled, handleCalculate, JS.or.
  simpl.
  destruct (JS.truthy err) eqn:He; simpl; [by rewrite ?He|].
  destruct (JS.truthy (calculationError i stage)); simpl; [done|].
  unfold onTimeout. simpl.
  by destruct (calculateEnhancements PAY_SCALE_2017 i stage).
Qed.

End ComponentInvariant.

(** What the invariant says of the stored stage. *)
Lemma stage_sync_lemma (PAY_SCALE_2017 PAY_SCALE_2022 : PayScale)
    (intlFormat : Z → string) (parseInt : string → Parsed)
    (i : SalaryInputs) (events : list Event) :
  foundStage
    (cells (run PAY_SCALE_2017 PAY_SCALE_2022 intlFormat parseInt events
              (mount PAY_SCALE_2022 intlFormat i)))
  = fst (stageEffect PAY_SCALE_2022 intlFormat
           (inputs
              (cells (run PAY_SCALE_2017 PAY_SCALE_2022 intlFormat parseInt
                        events (mount PAY_SCALE_2022 intlFormat i))))).
Proof.
  by destruct (run_invariant PAY_SCALE_2017 PAY_SCALE_2022 intlFormat parseInt
                 events _ (mount_invariant PAY_SCALE_2022 intlFormat i))
    as (Hstage & _).
Qed.

(** X12: after any sequence of events, the stored stage is the stage of the
    inputs now in the form: [foundStage] is what the effect computes from
    the current [inputs], never the stage of an earlier record. *)
Theorem stage_in_sync (PAY_SCALE_2017 PAY_SCALE_2022 : PayScale)
    (intlFormat : Z → string) (parseInt : string → Parsed)
    (i : SalaryInputs) (events : list Event) :
  let a := run PAY_SCALE_2017 PAY_SCALE_2022 intlFormat parseInt events
             (mount PAY_SCALE_2022 intlFormat i) in
  foundStage (cells a)
    = fst (stageEffect PAY_SCALE_2022 intlFormat (inputs (cells a))).
Proof.
  simpl.
  by destruct (run_invariant PAY_SCALE_2017 PAY_SCALE_2022 intlFormat parseInt
                 events _ (mount_invariant PAY_SCALE_2022 intlFormat i))
    as (Hstage & _).
Qed.

(** X13: after any sequence of events, a result is never shown together
    with an error, nor while the component is loading: when [results] holds
    a record, [error] is [null], [isLoading] is off and no timer waits. *)
Theorem result_without_error (PAY_SCALE_2017 PAY_SCALE_2022 : PayScale)
    (intlFormat : Z → string) (parseInt : string → Parsed)
    (i : SalaryInputs) (events : list Event) (r : CalculatedValues) :
  let a := run PAY_SCALE_2017 PAY_SCALE_2022 intlFormat parseInt events
             (mount PAY_SCALE_2022 intlFormat i) in
  results (cells a) = Some r →
  error (cells a) = None ∧ isLoading (cells a) = false ∧ timers a = [].
Proof.
  simpl. intros Hr.
  destruct (run_invariant PAY_SCALE_2017 PAY_SCALE_2022 intlFormat parseInt
              events _ (mount_invariant PAY_SCALE_2022 intlFormat i))
    as (_ & _ & Hload & Hwait & Hres).
  split; [apply Hres; by rewrite Hr|].
  assert (timers (run PAY_SCALE_2017 PAY_SCALE_2022 intlFormat parseInt events
                    (mount PAY_SCALE_2022 intlFormat i)) = []) as Hts.
  { destruct (timers _) as [|closure rest] eqn:Hts; [done|].
    rewrite Hwait in Hr; done. }
  split; [|done].
  destruct (isLoading _) eqn:Hl; [|done].
  by destruct (proj1 Hload eq_refl).
Qed.

Lemma result_without_error_witness :
  let a := run sample2017 sample2022 sampleFormat sampleParse [Click; Timeout]
             (mount sample2022 sampleFormat initialInputs) in
  error (cells a) = None ∧ isLoading (cells a) = false ∧ timers a = [].
Proof.
  apply (result_without_error sample2017 sample2022 sampleFormat sampleParse
           initialInputs [Click; Timeout]
           (mkValues 34270 10281 4770 15051 47700)).
  vm_compute. reflexivity.
Defined.

(** X14: after any sequence of events at most one timer waits, and one
    waits exactly while [isLoading] is set: the disabled button lets no
    second calculation start before the first has ended. *)
Theorem single_timer (PAY_SCALE_2017 PAY_SCALE_2022 : PayScale)
    (intlFormat : Z → string) (parseInt : string → Parsed)
    (i : SalaryInputs) (events : list Event) :
  let a := run PAY_SCALE_2017 PAY_SCALE_2022 intlFormat parseInt events
             (mount PAY_SCALE_2022 intlFormat i) in
  (length (timers a) ≤ 1)%nat ∧
  (isLoading (cells a) = true ↔ timers a ≠ []).
Proof.
  simpl.
  by destruct (run_invariant PAY_SCALE_2017 PAY_SCALE_2022 intlFormat parseInt
                 events _ (mount_invariant PAY_SCALE_2022 intlFormat i))
    as (_ & Hone & Hload & _).
Qed.

(** X15: the stage number shown by the banner [Base Stage Detected] is a
    stage of the grade now selected: the employee is not promoted, the
    number is between 1 and the number of stages of the grade on the current
    scale, and the value tabulated for it is at most the pay now entered. *)
Theorem stage_banner_valid (PAY_SCALE_2017 PAY_SCALE_2022 : PayScale)
    (intlFormat : Z → string) (parseInt : string → Parsed)
    (i : SalaryInputs) (events : list Event) (k : Z) :
  let a := run PAY_SCALE_2017 PAY_SCALE_2022 intlFormat parseInt events
             (mount PAY_SCALE_2022 intlFormat i) in
  stageBanner (cells a) = Some k →
  wasPromoted (inputs (cells a)) = false ∧
  ∃ (payScale : list Z) (v : Z),
    PAY_SCALE_2022 !! bps (inputs (cells a)) = Some payScale ∧
    1 ≤ k ≤ Z.of_nat (length payScale) ∧
    payScale !! Z.to_nat (k - 1) = Some v ∧
    v ≤ currentRunningBasicPay (inputs (cells a)).
Proof.
  simpl. intros Hbanner.
  pose proof (stage_sync_lemma PAY_SCALE_2017 PAY_SCALE_2022 intlFormat
                parseInt i events) as Hstage.
  revert Hbanner Hstage. unfold stageBanner, stageEffect.
  destruct (wasPromoted _) eqn:Hp; [done|]. simpl.
  destruct (foundStage _) as [s|]; [|done].
  destruct (negb _); [|done]. intros [= <-] Hs.
  destruct (detectStage PAY_SCALE_2022 intlFormat _ _) as [stage err] eqn:Hd.
  simpl in Hs. subst stage.
  destruct (detectStage_Some_scan _ _ _ _ _ _ Hd)
    as (payScale & n & m & Hscale & -> & Hscan & Hn & _).
  destruct (scanStages_le _ _ _ _ Hscan) as (v & Hv & Hvle).
  split; [done|]. exists payScale, v.
  split; [done|]. split; [lia|].
  replace (Z.to_nat (Z.of_nat n + 1 - 1)) with n by lia. done.
Qed.

Lemma stage_banner_valid_witness :
  let a := run sample2017 sample2022 sampleFormat sampleParse []
             (mount sample2022 sampleFormat initialInputs) in
  wasPromoted (inputs (cells a)) = false ∧
  ∃ (payScale : list Z) (v : Z),
    sample2022 !! bps (inputs (cells a)) = Some payScale ∧
    1 ≤ 10 ≤ Z.of_nat (length payScale) ∧
    payScale !! Z.to_nat (10 - 1) = Some v ∧
    v ≤ currentRunningBasicPay (inputs (cells a)).
Proof.
  apply (stage_banner_valid sample2017 sample2022 sampleFormat sampleParse
           initialInputs [] 10).
  vm_compute. reflexivity.
Defined.

(** One event that touches no dependency, on a component that shows an
    error. *)
Lemma step_offDependency (PAY_SCALE_2017 PAY_SCALE_2022 : PayScale)
    (intlFormat : Z → string) (parseInt : string → Parsed)
    (e : Event) (a : App) :
  JS.truthy (error (cells a)) = true → offDependency e = true →
  let a' := step PAY_SCALE_2017 PAY_SCALE_2022 intlFormat parseInt e a in
  error (cells a') = error (cells a) ∧
  foundStage (cells a') = foundStage (cells a) ∧
  isLoading (cells a') = isLoading (cells a) ∧
  timers a' = timers a.
Proof.
  destruct a as [[i r l err fs] signs ts]. simpl. intros Herr Hoff.
  destruct e as [[] value checked| |]; try done; simpl.
  - unfold depsChanged. simpl. by rewrite !Z.eqb_refl, !eqb_reflx.
  - unfold depsChanged. simpl. by rewrite !Z.eqb_refl, !eqb_reflx.
  - unfold buttonDisabled. simpl. rewrite Herr, orb_true_r. done.
Qed.

(** X16: an error is not cleared by editing the pre-promotion fields.  While
    an error is shown, changes of the pre-promotion grade and pay and clicks
    on the button leave the error as it is and the button disabled: only a
    change of the grade, of the current pay or of the promotion flag (or a
    timer still waiting) removes it. *)
Theorem error_sticks (PAY_SCALE_2017 PAY_SCALE_2022 : PayScale)
    (intlFormat : Z → string) (parseInt : string → Parsed)
    (events : list Event) (a : App) :
  JS.truthy (error (cells a)) = true →
  forallb offDependency events = true →
  let a' := run PAY_SCALE_2017 PAY_SCALE_2022 intlFormat parseInt events a in
  error (cells a') = error (cells a) ∧
  buttonDisabled (cells a') = true ∧
  foundStage (cells a') = foundStage (cells a) ∧
  timers a' = timers a.
Proof.
  revert a. induction events as [|e events IH]; intros a Herr Hoff; simpl.
  - unfold buttonDisabled. by rewrite Herr, orb_true_r.
  - simpl in Hoff. apply andb_true_iff in Hoff as [He Hoff].
    destruct (step_offDependency PAY_SCALE_2017 PAY_SCALE_2022 intlFormat
                parseInt e a Herr He) as (Herr' & Hfs & _ & Hts).
    destruct (IH (step PAY_SCALE_2017 PAY_SCALE_2022 intlFormat parseInt e a))
      as (H1 & H2 & H3 & H4); [by rewrite Herr' | done |].
    simpl in *. by rewrite H1, H3, H4, Herr', Hfs, Hts.
Qed.

Lemma error_sticks_witness :
  let a := run sample2017 sample2022 sampleFormat sampleParse [Click]
             (mount sample2022 sampleFormat (mkInputs 17 true 51740 15 0)) in
  let a' := run sample2017 sample2022 sampleFormat sampleParse
              [Change PrePromotionPayInput "50000" false; Click] a in
  error (cells a') = error (cells a) ∧
  buttonDisabled (cells a') = true ∧
  foundStage (cells a') = foundStage (cells a) ∧
  timers a' = timers a.
Proof.
  apply (error_sticks sample2017 sample2022 sampleFormat sampleParse
           [Change PrePromotionPayInput "50000" false; Click]
           (run sample2017 sample2022 sampleFormat sampleParse [Click]
              (mount sample2022 sampleFormat (mkInputs 17 true 51740 15 0))));
    reflexivity.
Defined.

(** The handler starts a timer on a state that shows no error and on which
    [calculateEnhancements] succeeds. *)
Lemma handleCalculate_starts (PAY_SCALE_2017 : PayScale) (st : AppState)
    (r : CalculatedValues) :
  JS.truthy (error st) = false →
  calculateEnhancements PAY_SCALE_2017 (inputs st) (foundStage st) = Some r →
  handleCalculate st =
    (mkState (inputs st) None true (error st) (foundStage st),
     Some (inputs st, foundStage st)).
Proof.
  intros Herr Hr. unfold handleCalculate. rewrite Herr. simpl.
  assert (calculationError (inputs st) (foundStage st) = None) as ->; [|done].
  revert Hr. unfold calculationError, calculateEnhancements, draBase.
  destruct (wasPromoted (inputs st)).
  - destruct (PAY_SCALE_2017 !! _); [|done]. intros Hr.
    destruct (enhance_Some _ _ _ Hr) as (Hb & Hc & _).
    destruct (Z.leb_spec (prePromotionBasicPay2017 (inputs st)) 0); [lia|].
    destruct (Z.leb_spec (currentRunningBasicPay (inputs st)) 0); [lia|].
    done.
  - by destruct (foundStage st).
Qed.

(** X17: the timer shows the result of the inputs as they were at the click.
    When the button is enabled, no timer waits and [calculateEnhancements]
    succeeds on the current inputs, a click followed by a change of any
    control and then by the end of the timer leaves in [results] the record
    of the inputs before the change, beside the changed inputs and with the
    error cleared, whatever the changed inputs are. *)
Theorem stale_result (PAY_SCALE_2017 PAY_SCALE_2022 : PayScale)
    (intlFormat : Z → string) (parseInt : string → Parsed) (a : App)
    (target : Control) (value : string) (checked : bool)
    (r : CalculatedValues) :
  buttonDisabled (cells a) = false → timers a = [] →
  calculateEnhancements PAY_SCALE_2017 (inputs (cells a))
    (foundStage (cells a)) = Some r →
  let a' := run PAY_SCALE_2017 PAY_SCALE_2022 intlFormat parseInt
              [Click; Change target value checked; Timeout] a in
  results (cells a') = Some r ∧
  inputs (cells a')
    = changedInputs parseInt target value checked (inputs (cells a)) ∧
  error (cells a') = None ∧
  timers a' = [].
Proof.
  destruct a as [st signs ts]. simpl. intros Hbutton -> Hr.
  assert (JS.truthy (error st) = false) as Herr.
  { unfold buttonDisabled in Hbutton.
    by apply orb_false_iff in Hbutton as [_ ?]. }
  unfold run, step. simpl. rewrite Hbutton.
  rewrite (handleCalculate_starts PAY_SCALE_2017 st r Herr Hr). simpl.
  unfold onTimeout. simpl. rewrite Hr.
  unfold handleInputChange. simpl.
  destruct (depsChanged _ _ _ _); [rewrite runStageEffect_cells|]; done.
Qed.

Lemma stale_result_witness :
  let a := mount sample2022 sampleFormat initialInputs in
  let a' := run sample2017 sample2022 sampleFormat sampleParse
              [Click; Change RunningPayInput "1000" false; Timeout] a in
  results (cells a') = Some (mkValues 34270 10281 4770 15051 47700) ∧
  inputs (cells a')
    = changedInputs sampleParse RunningPayInput "1000" false
        (inputs (cells a)) ∧
  error (cells a') = None ∧
  timers a' = [].
Proof.
  apply (stale_result sample2017 sample2022 sampleFormat sampleParse
           (mount sample2022 sampleFormat initialInputs)
           RunningPayInput "1000" false
           (mkValues 34270 10281 4770 15051 47700));
    vm_compute; reflexivity.
Defined.

(** X19: on a component just mounted on an input record, a click and the
    end of its timer leave in [results] and [error] the outcome of the
    request [calculate] on that record; when the effect stored an error the
    button is disabled and the error stays. *)
Theorem mounted_request (PAY_SCALE_2017 PAY_SCALE_2022 : PayScale)
    (intlFormat : Z → string) (parseInt : string → Parsed)
    (i : SalaryInputs) :
  let a := run PAY_SCALE_2017 PAY_SCALE_2022 intlFormat parseInt
             [Click; Timeout] (mount PAY_SCALE_2022 intlFormat i) in
  (results (cells a), error (cells a))
    = calculate PAY_SCALE_2017 PAY_SCALE_2022 intlFormat i.
Proof.
  by destruct (fresh_request PAY_SCALE_2017 PAY_SCALE_2022 intlFormat parseInt
                 i (false, false)) as [Hreq _].
Qed.

(** X20: a change of the grade, of the current pay or of the promotion flag
    starts afresh.  After any sequence of events that leaves no timer
    waiting, a change that alters a dependency of the effect, followed by a
    click and the end of its timer, leaves the outcome of the request
    [calculate] on the changed inputs: no error or result of earlier events
    reaches it. *)
Theorem dependency_change_refreshes (PAY_SCALE_2017 PAY_SCALE_2022 : PayScale)
    (intlFormat : Z → string) (parseInt : string → Parsed)
    (i : SalaryInputs) (events : list Event)
    (target : Control) (value : string) (checked : bool) :
  let a := run PAY_SCALE_2017 PAY_SCALE_2022 intlFormat parseInt events
             (mount PAY_SCALE_2022 intlFormat i) in
  let changed := changedInputs parseInt target value checked
                   (inputs (cells a)) in
  timers a = [] →
  depsChanged (inputs (cells a)) (zeroSigns a) changed
    (changedSigns parseInt target value (zeroSigns a)) = true →
  let a' := run PAY_SCALE_2017 PAY_SCALE_2022 intlFormat parseInt
              [Change target value checked; Click; Timeout] a in
  (results (cells a'), error (cells a'))
    = calculate PAY_SCALE_2017 PAY_SCALE_2022 intlFormat changed.
Proof.
  simpl. intros Hts Hdeps.
  destruct (run_invariant PAY_SCALE_2017 PAY_SCALE_2022 intlFormat parseInt
              events _ (mount_invariant PAY_SCALE_2022 intlFormat i))
    as (_ & _ & Hload & _).
  destruct (run PAY_SCALE_2017 PAY_SCALE_2022 intlFormat parseInt events _)
    as [[j r l err fs] signs ts].
  simpl in *. subst ts.
  assert (l = false) as ->.
  { destruct l; [|done]. by destruct (proj1 Hload eq_refl). }
  unfold handleInputChange. simpl. rewrite Hdeps.
  destruct (fresh_request PAY_SCALE_2017 PAY_SCALE_2022 intlFormat parseInt
              (changedInputs parseInt target value checked j)
              (changedSigns parseInt target value signs)) as [Hreq _].
  rewrite <- Hreq. simpl.
  by rewrite !runStageEffect_cells.
Qed.

Lemma dependency_change_refreshes_witness :
  let a := run sample2017 sample2022 sampleFormat sampleParse
             [Change RunningPayInput "1000" false]
             (mount sample2022 sampleFormat initialInputs) in
  let changed := changedInputs sampleParse RunningPayInput "50000" false
                   (inputs (cells a)) in
  let a' := run sample2017 sample2022 sampleFormat sampleParse
              [Change RunningPayInput "50000" false; Click; Timeout] a in
  (results (cells a'), error (cells a'))
    = calculate sample2017 sample2022 sampleFormat changed.
Proof.
  apply (dependency_change_refreshes sample2017 sample2022 sampleFormat
           sampleParse initialInputs [Change RunningPayInput "1000" false]
           RunningPayInput "50000" false);
    vm_compute; reflexivity.
Defined.

(** ** [formatCurrency] *)

Lemma replace_unfold (pat rep s : string) :
  JS.replace pat rep s =
    if String.prefix pat s
    then rep +:+ String.substring (String.length pat)
                   (String.length s - String.length pat)%nat s
    else match s with
         | EmptyString => EmptyString
         | String c s' => String c (JS.replace pat rep s')
         end.
Proof. by destruct s. Qed.

Lemma substring_all (s : string) :
  String.substring 0 (String.length s) s = s.
Proof. induction s as [|c s IH]; simpl; [done|by rewrite IH]. Qed.

Lemma prefix_append (pat rest : string) :
  String.prefix pat (pat +:+ rest) = true.
Proof.
  induction pat as [|c pat IH]; simpl; [by destruct rest|].
  by destruct (Ascii.ascii_dec c c).
Qed.

Lemma prefix_true (pat s : string) :
  String.prefix pat s = true → ∃ rest, s = pat +:+ rest.
Proof.
  revert s. induction pat as [|c pat IH]; intros s.
  - intros _. by exists s.
  - destruct s as [|d s]; simpl; [done|].
    destruct (Ascii.ascii_dec c d) as [->|]; [|done].
    intros Hp. destruct (IH s Hp) as [rest ->]. by exists rest.
Qed.

Lemma append_cons (c : Ascii.ascii) (a b : string) :
  String c a +:+ b = String c (a +:+ b).
Proof. reflexivity. Qed.

Lemma prefix_cons (x y : Ascii.ascii) (p s : string) :
  String.prefix (String x p) (String y s) =
    if Ascii.ascii_dec x y then String.prefix p s else false.
Proof. reflexivity. Qed.

(** A text that starts with the pattern: the pattern is replaced there. *)
Lemma replace_prefix (pat rep rest : string) :
  JS.replace pat rep (pat +:+ rest) = rep +:+ rest.
Proof.
  rewrite replace_unfold, prefix_append. f_equal.
  induction pat as [|c pat IH]; simpl.
  - rewrite Nat.sub_0_r. apply substring_all.
  - exact IH.
Qed.

(** X21: [formatCurrency] writes [PKR] in place of the first [Rs] of the
    text of the platform and keeps the rest: when the platform prints the
    amount (0 for an absent amount) as a text [a] without [Rs], then [Rs],
    then a text [b], the result is [a], then [PKR], then [b]; a later [Rs]
    in [b] stays. *)
Theorem formatCurrency_first_Rs (intlFormat : Z → string) (amount : option Z)
    (a b : string) :
  intlFormat (default 0 amount) = a +:+ "Rs" +:+ b →
  (∀ a1 a2, a ≠ a1 +:+ "Rs" +:+ a2) →
  formatCurrency intlFormat amount = a +:+ "PKR" +:+ b.
Proof.
  unfold formatCurrency. intros -> Hfree.
  induction a as [|c a IH].
  - apply (replace_prefix "Rs" "PKR" b).
  - rewrite !(append_cons c a), replace_unfold.
    assert (String.prefix "Rs" (String c (a +:+ "Rs" +:+ b)) = false) as ->.
    { rewrite prefix_cons.
      destruct (Ascii.ascii_dec _ c) as [<-|]; [|done].
      destruct a as [|d a]; [done|]. rewrite (append_cons d a), prefix_cons.
      destruct (Ascii.ascii_dec _ d) as [<-|]; [|done].
      by destruct (Hfree "" a). }
    f_equal. apply IH.
    intros a1 a2 ->. by destruct (Hfree (String c a1) a2).
Qed.

Lemma formatCurrency_first_Rs_witness :
  formatCurrency sampleFormat (Some 27360) = "" +:+ "PKR" +:+ " 27360".
Proof.
  apply (formatCurrency_first_Rs sampleFormat (Some 27360) "" " 27360").
  - reflexivity.
  - intros a1 a2 H. by destruct a1.
Defined.

(** X22: a text of the platform in which [Rs] does not occur is returned as
    it is. *)
Theorem formatCurrency_without_Rs (intlFormat : Z → string)
    (amount : option Z) :
  (∀ a b, intlFormat (default 0 amount) ≠ a +:+ "Rs" +:+ b) →
  formatCurrency intlFormat amount = intlFormat (default 0 amount).
Proof.
  unfold formatCurrency.
  generalize (intlFormat (default 0 amount)) as s.
  induction s as [|c s IH]; intros Hfree; [done|].
  rewrite replace_unfold.
  destruct (String.prefix "Rs" (String c s)) eqn:Hp.
  - destruct (prefix_true _ _ Hp) as [rest Hrest].
    by destruct (Hfree "" rest).
  - f_equal. apply IH. intros a b ->.
    by destruct (Hfree (String c a) b).
Qed.

Lemma formatCurrency_without_Rs_witness :
  formatCurrency (λ _ : Z, "PKR") None = "PKR".
Proof.
  apply (formatCurrency_without_Rs (λ _ : Z, "PKR") None).
  intros a b H. simpl in H.
  destruct a as [|c1 [|c2 [|c3 [|c4 a]]]]; simpl in H; try discriminate H.
Defined.

(** ** An emptied pay field *)

(** X23: emptying the pay field of an employee who was not promoted is met
    with silence first.  When [parseInt] cannot read the text of the pay
    field and the pay was not 0 before, the change stores the pay 0, no
    stage and no error, and no banner is shown; while nothing is loading, a
    click then shows the stage-missing error at once, with no result and no
    timer started. *)
Theorem emptied_pay_field (PAY_SCALE_2017 PAY_SCALE_2022 : PayScale)
    (intlFormat : Z → string) (parseInt : string → Parsed) (a : App)
    (value : string) (checked : bool) :
  wasPromoted (inputs (cells a)) = false →
  currentRunningBasicPay (inputs (cells a)) ≠ 0 →
  parseInt value = PNaN →
  isLoading (cells a) = false →
  let a1 := step PAY_SCALE_2017 PAY_SCALE_2022 intlFormat parseInt
              (Change RunningPayInput value checked) a in
  let a2 := step PAY_SCALE_2017 PAY_SCALE_2022 intlFormat parseInt Click a1 in
  currentRunningBasicPay (inputs (cells a1)) = 0 ∧
  foundStage (cells a1) = None ∧ error (cells a1) = None ∧
  results (cells a1) = None ∧ stageBanner (cells a1) = None ∧
  buttonDisabled (cells a1) = false ∧
  results (cells a2) = None ∧
  error (cells a2) = Some MSG_STAGE_MISSING ∧
  timers a2 = timers a.
Proof.
  destruct a as [[i r l err fs] signs ts]. simpl.
  intros Hp Hpay Hnan ->.
  assert (parsedValue parseInt value = (0, false)) as Hpv
    by (unfold parsedValue; by rewrite Hnan).
  unfold handleInputChange. simpl. rewrite !Hpv. simpl.
  assert (depsChanged i signs
            (mkInputs (bps i) (wasPromoted i) 0 (prePromotionBps i)
                      (prePromotionBasicPay2017 i))
            (signs.1, false) = true) as ->.
  { unfold depsChanged. simpl.
    destruct (Z.eqb_spec (currentRunningBasicPay i) 0); [done|].
    by rewrite andb_false_r. }
  rewrite runStageEffect_cells. unfold stageEffect. simpl. rewrite Hp.
  rewrite detectStage_guard by (left; lia). simpl.
  unfold stageBanner, buttonDisabled, handleCalculate, calculationError. simpl.
  rewrite ?Hp. simpl. rewrite app_nil_r. done.
Qed.

Lemma emptied_pay_field_witness :
  let a := mount sample2022 sampleFormat initialInputs in
  let a1 := step sample2017 sample2022 sampleFormat sampleParse
              (Change RunningPayInput "" false) a in
  let a2 := step sample2017 sample2022 sampleFormat sampleParse Click a1 in
  currentRunningBasicPay (inputs (cells a1)) = 0 ∧
  foundStage (cells a1) = None ∧ error (cells a1) = None ∧
  results (cells a1) = None ∧ stageBanner (cells a1) = None ∧
  buttonDisabled (cells a1) = false ∧
  results (cells a2) = None ∧
  error (cells a2) = Some MSG_STAGE_MISSING ∧
  timers a2 = timers a.
Proof.
  apply (emptied_pay_field sample2017 sample2022 sampleFormat sampleParse
           (mount sample2022 sampleFormat initialInputs) "" false);
    [reflexivity | vm_compute; discriminate | reflexivity | reflexivity].
Defined.

(** ** The promotion checkbox *)

(** X24: ticking or unticking the promotion checkbox discards the stage and
    the error shown before.  When the box changes the flag, the effect runs
    again: with the box ticked no stage and no error are stored, whatever
    error was shown; with the box unticked the stage and the error are those
    of the current grade and pay.  The result is cleared in both cases. *)
Theorem promotion_toggle (PAY_SCALE_2017 PAY_SCALE_2022 : PayScale)
    (intlFormat : Z → string) (parseInt : string → Parsed) (a : App)
    (value : string) (checked : bool) :
  wasPromoted (inputs (cells a)) = negb checked →
  let a' := step PAY_SCALE_2017 PAY_SCALE_2022 intlFormat parseInt
              (Change PromotedCheckbox value checked) a in
  wasPromoted (inputs (cells a')) = checked ∧
  results (cells a') = None ∧
  (foundStage (cells a'), error (cells a')) =
    (if checked then (None, None)
     else detectStage PAY_SCALE_2022 intlFormat (bps (inputs (cells a)))
            (currentRunningBasicPay (inputs (cells a)))).
Proof.
  destruct a as [[i r l err fs] signs ts]. simpl. intros Hp.
  unfold handleInputChange. simpl.
  assert (depsChanged i signs
            (mkInputs (bps i) checked (currentRunningBasicPay i)
                      (prePromotionBps i) (prePromotionBasicPay2017 i))
            signs = true) as ->.
  { unfold depsChanged. simpl. rewrite Hp, !Z.eqb_refl.
    by destruct checked. }
  rewrite runStageEffect_cells. unfold stageEffect. simpl.
  split; [done|]. split; [done|].
  destruct checked; [done|].
  by destruct (detectStage PAY_SCALE_2022 intlFormat _ _).
Qed.

Lemma promotion_toggle_witness :
  let a := run sample2017 sample2022 sampleFormat sampleParse
             [Change RunningPayInput "1000" false]
             (mount sample2022 sampleFormat initialInputs) in
  let a' := step sample2017 sample2022 sampleFormat sampleParse
              (Change PromotedCheckbox "" true) a in
  wasPromoted (inputs (cells a')) = true ∧
  results (cells a') = None ∧
  (foundStage (cells a'), error (cells a')) =
    (if true then (None, None)
     else detectStage sample2022 sampleFormat (bps (inputs (cells a)))
            (currentRunningBasicPay (inputs (cells a)))).
Proof.
  apply (promotion_toggle sample2017 sample2022 sampleFormat sampleParse
           (run sample2017 sample2022 sampleFormat sampleParse
              [Change RunningPayInput "1000" false]
              (mount sample2022 sampleFormat initialInputs))
           "" true).
  reflexivity.
Defined.

(** ** Determinism of a calculation *)




